(** * Mirror Trade Processor ([src/app.py])

    A shallow embedding of the column matcher ([clean_name], [find_col]),
    the quote extractor ([extract_quote]) and the mirroring script of
    [src/app.py], followed by the properties of the program.

    Modelling conventions.
    - Python [str] values are [string]s over ASCII: [upper], [lower]
      and [strip] act on the ASCII letters and the ASCII white space only.
    - A data frame is its list of column labels and its list of rows; a
      row is a finite map from column label to cell, and a label without
      a binding reads as the missing value.
    - The pandas coercions ([pd.to_numeric], [pd.to_datetime], [str] of a
      cell) and the arithmetic of numeric cells belong to the library,
      not to [app.py]: they are the fields of the class [Pandas], and
      every definition and theorem of the script is stated over an
      arbitrary instance.  [errors="coerce"] turns a failed coercion into
      the missing value, which is [None] here.
    - The Streamlit calls ([st.error], [st.warning], [st.info],
      [st.success]) append to a log; [st.stop] ends the run. *)

From Stdlib Require Import String Ascii List ZArith Lia Bool Sorted Permutation.
From Stdlib Require Import DecimalString.
From stdpp Require Import gmap strings list fin_maps.

Open Scope string_scope.

(** ** Python string operations *)

Module PyStr.

Definition code (c : ascii) : nat := nat_of_ascii c.

Definition is_lower (c : ascii) : bool := (97 <=? code c)%nat && (code c <=? 122)%nat.
Definition is_upper (c : ascii) : bool := (65 <=? code c)%nat && (code c <=? 90)%nat.
Definition is_digit (c : ascii) : bool := (48 <=? code c)%nat && (code c <=? 57)%nat.

(** The complement of the class [[^0-9a-zA-Z]] of [clean_name]. *)
Definition is_alnum (c : ascii) : bool := is_digit c || is_lower c || is_upper c.

(** White space removed by [str.strip()]: TAB, LF, VT, FF, CR, FS, GS,
    RS, US and the space. *)
Definition is_space (c : ascii) : bool :=
  ((9 <=? code c)%nat && (code c <=? 13)%nat)
  || ((28 <=? code c)%nat && (code c <=? 32)%nat).

Definition to_upper (c : ascii) : ascii :=
  if is_lower c then ascii_of_nat (code c - 32) else c.

Definition to_lower (c : ascii) : ascii :=
  if is_upper c then ascii_of_nat (code c + 32) else c.

Fixpoint map_chars (f : ascii -> ascii) (s : string) : string :=
  match s with
  | EmptyString => EmptyString
  | String c r => String (f c) (map_chars f r)
  end.

(** [s.upper()] and [s.lower()]. *)
Definition upper (s : string) : string := map_chars to_upper s.
Definition lower (s : string) : string := map_chars to_lower s.

(** [s.lstrip(chars)], [s.rstrip(chars)] and [s.strip(chars)] for a
    class of characters [p]. *)
Fixpoint lstrip_with (p : ascii -> bool) (s : string) : string :=
  match s with
  | EmptyString => EmptyString
  | String c r => if p c then lstrip_with p r else s
  end.

Fixpoint rstrip_with (p : ascii -> bool) (s : string) : string :=
  match s with
  | EmptyString => EmptyString
  | String c r =>
      match rstrip_with p r with
      | EmptyString => if p c then EmptyString else String c EmptyString
      | r' => String c r'
      end
  end.

Definition strip_with (p : ascii -> bool) (s : string) : string :=
  lstrip_with p (rstrip_with p s).

(** [s.strip()]. *)
Definition strip (s : string) : string := strip_with is_space s.

(** [s.endswith(t)]: some suffix of [s] is [t]. *)
Fixpoint endswith (s t : string) : bool :=
  String.eqb s t ||
  match s with
  | EmptyString => false
  | String _ r => endswith r t
  end.

(** [ch in s] for a one-character string [ch]. *)
Fixpoint contains (ch : ascii) (s : string) : bool :=
  match s with
  | EmptyString => false
  | String c r => Ascii.eqb c ch || contains ch r
  end.

(** [s.split(sep)] for a one-character separator: never empty. *)
Fixpoint split (sep : ascii) (s : string) : list string :=
  match s with
  | EmptyString => [EmptyString]
  | String c r =>
      if Ascii.eqb c sep then EmptyString :: split sep r
      else match split sep r with
           | h :: t => String c h :: t
           | [] => [String c EmptyString]
           end
  end.

(** [l[-1]] on the result of a split. *)
Definition last_item (l : list string) : string := List.last l EmptyString.

(** [s[-n:]]: the last [n] characters, the whole of a shorter string. *)
Definition last_chars (n : nat) (s : string) : string :=
  String.substring (String.length s - n) n s.

(** [sep.join(l)]. *)
Definition join (sep : string) (l : list string) : string := String.concat sep l.

End PyStr.

(** ** Helper functions of [app.py] *)

(** [re.sub(r'[^0-9a-zA-Z]+', '_', s)]: every maximal run of characters
    outside the class becomes one underscore; [in_run] tells that the
    previous character was already part of such a run. *)
Fixpoint re_sub_runs (in_run : bool) (s : string) : string :=
  match s with
  | EmptyString => EmptyString
  | String c r =>
      if PyStr.is_alnum c then String c (re_sub_runs false r)
      else if in_run then re_sub_runs true r
      else String "_"%char (re_sub_runs true r)
  end.

(** [clean_name], lines 11-12. *)
Definition clean_name (s : string) : string :=
  PyStr.lower (PyStr.strip_with (Ascii.eqb "_"%char) (re_sub_runs false s)).

(** The inner loop of [find_col], lines 19-21. *)
Fixpoint find_clean (pat_clean : string) (orig_cols : list string) : option string :=
  match orig_cols with
  | [] => None
  | c :: cs =>
      if String.eqb (clean_name c) pat_clean then Some c
      else find_clean pat_clean cs
  end.

(** [find_col], lines 14-22, on a list of patterns. *)
Fixpoint find_col (orig_cols : list string) (patterns : list string) : option string :=
  match patterns with
  | [] => None
  | pat :: pats =>
      match find_clean (clean_name pat) orig_cols with
      | Some c => Some c
      | None => find_col orig_cols pats
      end
  end.

Definition common_quotes : list string :=
  ["USDT"; "BUSD"; "USD"; "ETH"; "BTC"; "INR"].

(** The loop of lines 31-33. *)
Fixpoint first_suffix (s : string) (quotes : list string) : option string :=
  match quotes with
  | [] => None
  | q :: qs => if PyStr.endswith s q then Some q else first_suffix s qs
  end.

(** [extract_quote], lines 24-34, on the text of the market cell. *)
Definition extract_quote (market_str : string) : string :=
  let s := PyStr.strip (PyStr.upper market_str) in
  if PyStr.contains "-"%char s then PyStr.last_item (PyStr.split "-"%char s)
  else match first_suffix s common_quotes with
       | Some q => q
       | None => PyStr.last_chars 3 s
       end.

(** ** Cells, rows and frames *)

(** A cell of the sheet: text, a number, a time stamp, or one of the two
    missing values ([NaN] of a numeric column, [NaT] of a date column). *)
Inductive cell (num : Type) : Type :=
| CStr (s : string)
| CNum (n : num)
| CTime (t : Z)
| CNaN
| CNaT.

Arguments CStr {num} s.
Arguments CNum {num} n.
Arguments CTime {num} t.
Arguments CNaN {num}.
Arguments CNaT {num}.

(** What the script uses of pandas and of Python on single cells.
    [to_numeric] and [to_datetime] are the coercions with
    [errors="coerce"]: [None] is the missing value they produce. *)
Class Pandas : Type := {
  num : Type;
  num_mul : num -> num -> num;
  num_one : num;
  cell_str : cell num -> string;
  to_numeric : cell num -> option num;
  to_datetime : cell num -> option Z;
  (** [str] of a [str] is the string itself. *)
  cell_str_text : forall s, cell_str (CStr s) = s
}.

(** A row: the cells by column label. *)
Abbreviation row := (gmap string (cell num)).

Section Frames.
Context {P : Pandas}.

Record frame : Type := Frame { columns : list string; rows : list row }.

(** [r[c]]: a label without a binding reads as the missing value. *)
Definition row_get (c : string) (r : row) : cell num :=
  match r !! c with
  | Some v => v
  | None => CNaN
  end.

Definition has_column (c : string) (cols : list string) : bool :=
  existsb (String.eqb c) cols.

(** [df[c] = f(df)], row by row; a new label is appended. *)
Definition assign (c : string) (f : row -> cell num) (df : frame) : frame :=
  {| columns :=
       if has_column c (columns df) then columns df else (columns df ++ [c])%list;
     rows := List.map (fun r => <[c := f r]> r) (rows df) |}.

(** [df.drop(columns=[c], errors="ignore")]. *)
Definition drop (c : string) (df : frame) : frame :=
  {| columns := List.filter (fun k => negb (String.eqb k c)) (columns df);
     rows := List.map (delete c) (rows df) |}.

(** [df[mask]] for a row-wise mask. *)
Definition select (mask : row -> bool) (df : frame) : frame :=
  {| columns := columns df; rows := List.filter mask (rows df) |}.

(** [pd.concat([a, b], ignore_index=True, sort=False)]. *)
Definition concat (a b : frame) : frame :=
  {| columns :=
       (columns a
        ++ List.filter (fun k => negb (has_column k (columns a))) (columns b))%list;
     rows := (rows a ++ rows b)%list |}.

(** [df.empty] for a frame that has columns. *)
Definition is_empty (df : frame) : bool :=
  match rows df with
  | [] => true
  | _ :: _ => false
  end.

(** The key of [sort_values(by=c)] on a column of time stamps. *)
Definition time_key (c : string) (r : row) : option Z :=
  match row_get c r with
  | CTime t => Some t
  | _ => None
  end.

Definition key_or_zero (c : string) (r : row) : Z :=
  match time_key c r with
  | Some t => t
  | None => 0%Z
  end.

Definition has_key (c : string) (r : row) : bool :=
  match time_key c r with
  | Some _ => true
  | None => false
  end.

Fixpoint insert_sorted (key : row -> Z) (r : row) (l : list row) : list row :=
  match l with
  | [] => [r]
  | x :: xs =>
      if (key r <=? key x)%Z then r :: x :: xs
      else x :: insert_sorted key r xs
  end.

Definition sort_rows (key : row -> Z) (l : list row) : list row :=
  List.fold_right (insert_sorted key) [] l.

(** [df.sort_values(by=c).reset_index(drop=True)] with the default
    [na_position="last"]: the rows with a key in ascending order of the
    key, then the rows without one in the order they had.  Rows of equal
    key are kept in their order here; pandas' default sort does not
    promise an order among them, and no theorem below depends on it
    except where it is said. *)
Definition sort_values (c : string) (df : frame) : frame :=
  {| columns := columns df;
     rows :=
       (sort_rows (key_or_zero c) (List.filter (has_key c) (rows df))
        ++ List.filter (fun r => negb (has_key c r)) (rows df))%list |}.

End Frames.

(** ** The script *)

(** What the run shows through [st.error], [st.warning], [st.info] and
    [st.success], in order.  The texts are those of the source without
    their leading pictograph. *)
Inductive message : Type :=
| StError (text : string)
| StWarning (text : string)
| StInfo (text : string)
| StSuccess (text : string).

Definition msg_missing (missing : list string) : string :=
  "Required column(s) missing: " +:+ PyStr.join ", " missing.
Definition msg_rename : string :=
  "Please rename your Excel headers or add these columns and re-upload.".
Definition msg_nothing_to_mirror : string :=
  "No non-INR rows found - nothing to mirror. You can download the original file.".
Definition msg_non_numeric : string :=
  "Could not compute exact INR Price/Total because of non-numeric values. Mirrored Price/Total may contain NaNs.".
Definition msg_no_rate : string :=
  "No USD-INR rate column found. Mirrored INR Price/Total cannot be computed precisely and will be left as original values or NaN.".
Definition msg_complete : string :=
  "Processing complete. You can download the processed file below.".
Definition msg_failed : string :=
  "An error occurred while processing the file.".

(** The candidate names of each role, lines 72-78, in the order of the
    dictionary. *)
Definition candidates : list (string * list string) :=
  [ ("market", ["market"; "pair"; "market_2"]);
    ("date", ["date"; "trade date"; "trade_date"]);
    ("trade_type", ["trade type"; "trade_type"; "side"; "action"]);
    ("quantity", ["quantity"; "qty"; "totalvolume"; "total_volume"]);
    ("price", ["price"; "final price"; "rate"; "actualrate"]);
    ("total", ["total"; "amount"; "total_inr"; "gross_amount"]);
    ("usd_inr", ["usd_inr_rate"; "usd_inr"; "usd-inr"; "usd inr"]) ].

(** The dictionary [col] of lines 71-79: role to detected column. *)
Definition detect_columns (orig_cols : list string) : gmap string (option string) :=
  list_to_map
    (List.map (fun rp => (fst rp, find_col orig_cols (snd rp))) candidates).

(** [col.get(r)] and [col[r]]: [None] for an unbound role. *)
Definition col_get (col : gmap string (option string)) (r : string) : option string :=
  match col !! r with
  | Some v => v
  | None => None
  end.

Definition required : list string :=
  ["market"; "date"; "trade_type"; "quantity"; "price"; "total"].

(** Line 88. *)
Definition missing_roles (col : gmap string (option string)) : list string :=
  List.filter (fun r => match col_get col r with None => true | Some _ => false end)
    required.

(** The test [if usd_col:] of line 136: [None] and the empty string are
    false. *)
Definition truthy (c : option string) : option string :=
  match c with
  | Some s => if String.eqb s "" then None else Some s
  | None => None
  end.

(** The function of line 129. *)
Definition flip (x : string) : string :=
  if String.eqb x "SELL" then "BUY"
  else if String.eqb x "BUY" then "SELL"
  else x.

(** How the run ended. *)
Inductive outcome {P : Pandas} : Type :=
| StoppedMissing (missing : list string)   (* lines 89-92 *)
| StoppedOriginal (df : frame)             (* lines 112-120 *)
| Completed (final_df : frame)             (* lines 159-171 *)
| Failed.                                  (* lines 173-175 *)

Section Script.
Context {P : Pandas}.

(** Line 108: the mask [is_inr]. *)
Definition is_inr (mkt_col : string) (r : row) : bool :=
  PyStr.endswith (PyStr.upper (cell_str (row_get mkt_col r))) "INR".

(** [series + "INR"] on a column of text. *)
Definition add_text (c : cell num) (t : string) : cell num :=
  match c with
  | CStr q => CStr (q +:+ t)
  | _ => CNaN
  end.

(** The product of two coerced columns, cell by cell: missing as soon
    as one factor is. *)
Definition mul_numeric (a b : cell num) : cell num :=
  match to_numeric a, to_numeric b with
  | Some x, Some y => CNum (num_mul x y)
  | _, _ => CNaN
  end.

(** Lines 136-145 on the frame of mirrored rows.  With [errors="coerce"]
    neither coercion raises on a cell, so the handler of lines 142-143 is
    not entered. *)
Definition convert (price_col total_col : string) (usd_col : option string)
    (mirrored : frame) : frame * list message :=
  match truthy usd_col with
  | Some usd =>
      let mirrored :=
        assign price_col
          (fun r => mul_numeric (row_get price_col r) (row_get usd r)) mirrored in
      let mirrored :=
        assign total_col
          (fun r => mul_numeric (row_get total_col r) (row_get usd r)) mirrored in
      let mirrored := assign usd (fun _ => CNum num_one) mirrored in
      (mirrored, [])
  | None => (mirrored, [StWarning msg_no_rate])
  end.

(** Lines 123-147: the mirrored rows of the non-INR rows. *)
Definition mirror (mkt_col tt_col qty_col price_col total_col : string)
    (usd_col : option string) (df_non_inr : frame) : frame * list message :=
  let mirrored := df_non_inr in
  let mirrored :=
    assign "__quote__"
      (fun r => CStr (extract_quote (cell_str (row_get mkt_col r)))) mirrored in
  let mirrored :=
    assign mkt_col (fun r => add_text (row_get "__quote__" r) "INR") mirrored in
  let mirrored :=
    assign tt_col
      (fun r => CStr (flip (PyStr.upper (cell_str (row_get tt_col r))))) mirrored in
  let mirrored := assign qty_col (fun r => row_get qty_col r) mirrored in
  let '(mirrored, warnings) := convert price_col total_col usd_col mirrored in
  (drop "__quote__" mirrored, warnings).

(** Line 154: [pd.to_datetime(..., errors="coerce")] on one cell. *)
Definition coerce_datetime (c : cell num) : cell num :=
  match to_datetime c with
  | Some t => CTime t
  | None => CNaT
  end.

(** Lines 152-157.  With [errors="coerce"] the coercion does not raise
    and the sort is always reached. *)
Definition sort_by_date (date_col : string) (final_df : frame) : frame :=
  let final_df :=
    assign date_col (fun r => coerce_datetime (row_get date_col r)) final_df in
  sort_values date_col final_df.

(** Lines 95-171 once the roles are bound. *)
Definition transform (mkt_col tt_col qty_col price_col total_col date_col : string)
    (usd_col : option string) (df_raw : frame) : list message * outcome :=
  let df := df_raw in
  let df_non_inr := select (fun r => negb (is_inr mkt_col r)) df in
  if is_empty df_non_inr then
    ([StInfo msg_nothing_to_mirror], StoppedOriginal df)
  else
    let '(mirrored, warnings) :=
      mirror mkt_col tt_col qty_col price_col total_col usd_col df_non_inr in
    let final_df := concat df mirrored in
    let final_df := sort_by_date date_col final_df in
    ((warnings ++ [StSuccess msg_complete])%list, Completed final_df).

(** The run on an uploaded sheet, lines 66-175.  A role that is [None]
    after the validation would raise in [df[None]] and end in the outer
    handler. *)
Definition process (df_raw : frame) : list message * outcome :=
  let orig_cols := columns df_raw in
  let col := detect_columns orig_cols in
  let missing := missing_roles col in
  match missing with
  | _ :: _ =>
      ([StError (msg_missing missing); StWarning msg_rename], StoppedMissing missing)
  | [] =>
      match col_get col "market", col_get col "trade_type", col_get col "quantity",
            col_get col "price", col_get col "total", col_get col "date" with
      | Some mkt_col, Some tt_col, Some qty_col,
        Some price_col, Some total_col, Some date_col =>
          transform mkt_col tt_col qty_col price_col total_col date_col
            (col_get col "usd_inr") df_raw
      | _, _, _, _, _, _ => ([StError msg_failed], Failed)
      end
  end.

(** *** Row-wise reading of the script, for the statements *)

(** The columns of a run whose required roles are all bound. *)
Record roles : Type := Roles {
  mkt_col : string;
  tt_col : string;
  qty_col : string;
  price_col : string;
  total_col : string;
  date_col : string;
  usd_col : option string
}.

Definition resolve (orig_cols : list string) : option roles :=
  let col := detect_columns orig_cols in
  match col_get col "market", col_get col "trade_type", col_get col "quantity",
        col_get col "price", col_get col "total", col_get col "date" with
  | Some m, Some t, Some q, Some p, Some tot, Some d =>
      Some (Roles m t q p tot d (col_get col "usd_inr"))
  | _, _, _, _, _, _ => None
  end.

(** What lines 136-141 do to one mirrored row. *)
Definition convert_row (ro : roles) (r : row) : row :=
  match truthy (usd_col ro) with
  | Some usd =>
      let r1 :=
        <[price_col ro :=
            mul_numeric (row_get (price_col ro) r) (row_get usd r)]> r in
      let r2 :=
        <[total_col ro :=
            mul_numeric (row_get (total_col ro) r1) (row_get usd r1)]> r1 in
      <[usd := CNum num_one]> r2
  | None => r
  end.

(** What lines 123-147 do to one non-INR row. *)
Definition mirror_row (ro : roles) (r : row) : row :=
  let r1 :=
    <["__quote__" := CStr (extract_quote (cell_str (row_get (mkt_col ro) r)))]> r in
  let r2 := <[mkt_col ro := add_text (row_get "__quote__" r1) "INR"]> r1 in
  let r3 :=
    <[tt_col ro :=
        CStr (flip (PyStr.upper (cell_str (row_get (tt_col ro) r2))))]> r2 in
  let r4 := <[qty_col ro := row_get (qty_col ro) r3]> r3 in
  delete "__quote__" (convert_row ro r4).

(** What line 154 does to one row of the combined table. *)
Definition coerce_row (ro : roles) (r : row) : row :=
  <[date_col ro := coerce_datetime (row_get (date_col ro) r)]> r.

(** The rows of line 150, originals before mirrored rows. *)
Definition concat_rows (ro : roles) (df : frame) : list row :=
  (rows df
   ++ List.map (mirror_row ro)
        (List.filter (fun r => negb (is_inr (mkt_col ro) r)) (rows df)))%list.

(** The parsed date of a row, [None] when it does not parse. *)
Definition parsed_date (ro : roles) (r : row) : option Z :=
  to_datetime (row_get (date_col ro) r).

End Script.

(** ** A sheet of integers and dates

    An instance of [Pandas] on which the script can be run: numeric
    values are integers with their product, numeric text is a decimal
    integer, a time stamp counts nanoseconds since 1970-01-01, and text is
    a date when it reads [YYYY-MM-DD].  Numbers with a fraction, other
    date formats, and the fraction of a second in the text of a time
    stamp are not covered by this instance. *)

Module Sheet.

Definition text_of_int (z : Z) : string := NilZero.string_of_int (Z.to_int z).

Definition int_of_text (s : string) : option Z :=
  option_map Z.of_int (NilZero.int_of_string (PyStr.strip s)).

Definition digit (c : ascii) : option Z :=
  if PyStr.is_digit c then Some (Z.of_nat (PyStr.code c) - 48)%Z else None.

(** The value of a string of digits, [None] on anything else. *)
Fixpoint digits (acc : Z) (s : string) : option Z :=
  match s with
  | EmptyString => Some acc
  | String c r =>
      match digit c with
      | Some d => digits (10 * acc + d)%Z r
      | None => None
      end
  end.

Definition is_leap (y : Z) : bool :=
  ((y mod 4 =? 0) && negb (y mod 100 =? 0) || (y mod 400 =? 0))%Z.

Definition days_in_month (y m : Z) : Z :=
  if (m =? 2)%Z then (if is_leap y then 29 else 28)%Z
  else if ((m =? 4) || (m =? 6) || (m =? 9) || (m =? 11))%Z then 30%Z
  else 31%Z.

(** Days from 1970-01-01 to the civil date [y-m-d]. *)
Definition days_from_civil (y m d : Z) : Z :=
  let y' := (if m <=? 2 then y - 1 else y)%Z in
  let era := (y' / 400)%Z in
  let yoe := (y' - era * 400)%Z in
  let mp := (if m <=? 2 then m + 9 else m - 3)%Z in
  let doy := ((153 * mp + 2) / 5 + d - 1)%Z in
  let doe := (yoe * 365 + yoe / 4 - yoe / 100 + doy)%Z in
  (era * 146097 + doe - 719468)%Z.

Definition ns_per_day : Z := 86400000000000.

(** [YYYY-MM-DD] to nanoseconds since the epoch. *)
Definition date_of_text (s : string) : option Z :=
  let s := PyStr.strip s in
  if negb (Nat.eqb (String.length s) 10) then None
  else if negb (String.eqb (String.substring 4 1 s) "-"
                && String.eqb (String.substring 7 1 s) "-") then None
  else
    match digits 0 (String.substring 0 4 s),
          digits 0 (String.substring 5 2 s),
          digits 0 (String.substring 8 2 s) with
    | Some y, Some m, Some d =>
        if ((1 <=? m) && (m <=? 12) && (1 <=? d) && (d <=? days_in_month y m))%Z
        then Some (days_from_civil y m d * ns_per_day)%Z
        else None
    | _, _, _ => None
    end.

Definition pad (width : nat) (z : Z) : string :=
  let s := text_of_int z in
  String.concat "" (List.repeat "0" (width - String.length s)) +:+ s.

(** The civil date of a day number, as text. *)
Definition civil_text (days : Z) : string :=
  let z := (days + 719468)%Z in
  let era := (z / 146097)%Z in
  let doe := (z - era * 146097)%Z in
  let yoe := ((doe - doe / 1460 + doe / 36524 - doe / 146096) / 365)%Z in
  let doy := (doe - (365 * yoe + yoe / 4 - yoe / 100))%Z in
  let mp := ((5 * doy + 2) / 153)%Z in
  let d := (doy - (153 * mp + 2) / 5 + 1)%Z in
  let m := (if mp <? 10 then mp + 3 else mp - 9)%Z in
  let y := (yoe + era * 400 + (if m <=? 2 then 1 else 0))%Z in
  pad 4 y +:+ "-" +:+ pad 2 m +:+ "-" +:+ pad 2 d.

(** [str] of a time stamp: [YYYY-MM-DD HH:MM:SS]. *)
Definition text_of_time (t : Z) : string :=
  let secs := ((t mod ns_per_day) / 1000000000)%Z in
  civil_text (t / ns_per_day) +:+ " " +:+ pad 2 (secs / 3600) +:+ ":"
    +:+ pad 2 ((secs / 60) mod 60) +:+ ":" +:+ pad 2 (secs mod 60).

Definition str_of (c : cell Z) : string :=
  match c with
  | CStr s => s
  | CNum n => text_of_int n
  | CTime t => text_of_time t
  | CNaN => "nan"
  | CNaT => "NaT"
  end.

Definition numeric_of (c : cell Z) : option Z :=
  match c with
  | CStr s => int_of_text s
  | CNum n => Some n
  | _ => None
  end.

Definition datetime_of (c : cell Z) : option Z :=
  match c with
  | CStr s => date_of_text s
  | CNum n => Some n
  | CTime t => Some t
  | _ => None
  end.

Definition pandas : Pandas :=
  {| num := Z;
     num_mul := Z.mul;
     num_one := 1%Z;
     cell_str := str_of;
     to_numeric := numeric_of;
     to_datetime := datetime_of;
     cell_str_text := fun _ => eq_refl |}.

(** A row from its cells, in the order of the header. *)
Definition mk_row (cells : list (string * cell Z)) : gmap string (cell (@num pandas)) :=
  list_to_map cells.

(** [run df]: the script on this instance. *)
Definition run (df : @frame pandas) : list message * @outcome pandas :=
  @process pandas df.

(** The rows of a run that produced a table. *)
Definition output_rows (o : @outcome pandas) :
    option (list (gmap string (cell (@num pandas)))) :=
  match o with
  | Completed final_df => Some (rows final_df)
  | StoppedOriginal df => Some (rows df)
  | _ => None
  end.

End Sheet.

(** ** Notions used in the statements *)

(** No pattern of the list matches any column after cleaning. *)
Definition unmatched (cols patterns : list string) : Prop :=
  Forall (fun p => Forall (fun x => clean_name x <> clean_name p) cols) patterns.

(** Two lists of tokens without a common element. *)
Definition disjoint_tokens (l1 l2 : list string) : bool :=
  forallb (fun a => forallb (fun b => negb (String.eqb a b)) l2) l1.

(** The columns that the script reads or writes, the scratch column
    first. *)
Definition role_columns (ro : roles) : list string :=
  ("__quote__" :: mkt_col ro :: tt_col ro :: qty_col ro :: price_col ro
     :: total_col ro :: date_col ro
     :: match usd_col ro with Some u => [u] | None => [] end)%list.

Section StatementNotions.
Context {P : Pandas}.

(** The rows that line 110 selects for mirroring. *)
Definition non_inr_rows (ro : roles) (df : frame) : list row :=
  List.filter (fun r => negb (is_inr (mkt_col ro) r)) (rows df).

(** The combined table of line 150 after the coercion of line 154. *)
Definition coerced_rows (ro : roles) (df : frame) : list row :=
  List.map (coerce_row ro) (concat_rows ro df).

(** A row of the coerced table holds a date. *)
Definition dated (ro : roles) (r : row) : bool := has_key (date_col ro) r.

(** The date cell of a row parses. *)
Definition parses (ro : roles) (r : row) : bool :=
  match parsed_date ro r with
  | Some _ => true
  | None => false
  end.

(** Two rows that hold dates, the first not after the second. *)
Definition by_date (ro : roles) (a b : row) : Prop :=
  match time_key (date_col ro) a, time_key (date_col ro) b with
  | Some x, Some y => (x <= y)%Z
  | _, _ => False
  end.

(** The messages of a completed run. *)
Definition completed_log (ro : roles) : list message :=
  (match truthy (usd_col ro) with
   | Some _ => []
   | None => [StWarning msg_no_rate]
   end ++ [StSuccess msg_complete])%list.

End StatementNotions.

(** ** Sample sheets *)

Module Samples.

Import Sheet.
#[local] Open Scope Z_scope.

Definition header_rate : list string :=
  ["Market"; "Date"; "Trade Type"; "Quantity"; "Price"; "Total"; "USD-INR"].

Definition header_no_rate : list string :=
  ["Market"; "Date"; "Trade Type"; "Quantity"; "Price"; "Total"].

(** A header without a date and without a quantity column. *)
Definition header_short : list string := ["Market"; "Side"; "Price"; "Total"].

Definition roles_rate : roles :=
  Roles "Market" "Trade Type" "Quantity" "Price" "Total" "Date" (Some "USD-INR").


(** A row of a sheet with the rate column. *)
Definition trade (market date side quantity price total rate : cell Z) :
    gmap string (cell (@num pandas)) :=
  mk_row [("Market", market); ("Date", date); ("Trade Type", side);
          ("Quantity", quantity); ("Price", price); ("Total", total);
          ("USD-INR", rate)].


(** The scenario of the specification: one BTC-USDT purchase. *)
Definition btc_buy : gmap string (cell (@num pandas)) :=
  trade (CStr "BTC-USDT") (CTime 0) (CStr "BUY") (CNum 2) (CNum 50000)
    (CNum 100000) (CNum 83).

Definition btc_buy_mirrored : gmap string (cell (@num pandas)) :=
  trade (CStr "USDTINR") (CTime 0) (CStr "SELL") (CNum 2) (CNum 4150000)
    (CNum 8300000) (CNum 1).

Definition sheet_btc : @frame pandas := Frame header_rate [btc_buy].

(** An INR row whose date cell is the text [pending]. *)
Definition inr_undated : gmap string (cell (@num pandas)) :=
  trade (CStr "USDINR") (CStr "pending") (CStr "BUY") (CNum 10) (CNum 83)
    (CNum 830) (CNum 1).

(** A row whose symbol ends with INR only once trimmed. *)
Definition inr_padded : gmap string (cell (@num pandas)) :=
  trade (CStr "USDINR ") (CTime 0) (CStr "BUY") (CNum 10) (CNum 83)
    (CNum 830) (CNum 1).

Definition sheet_inr : @frame pandas :=
  Frame header_rate [inr_undated; inr_padded; btc_buy].

(** A BTC-USDT row whose date does not parse, before a dated INR row. *)
Definition btc_undated : gmap string (cell (@num pandas)) :=
  trade (CStr "BTC-USDT") (CStr "pending") (CStr "BUY") (CNum 2) (CNum 50000)
    (CNum 100000) (CNum 83).

Definition inr_dated : gmap string (cell (@num pandas)) :=
  trade (CStr "USDINR") (CTime 0) (CStr "BUY") (CNum 10) (CNum 83)
    (CNum 830) (CNum 1).

Definition sheet_dates : @frame pandas := Frame header_rate [btc_undated; inr_dated].

(** A BTC-USDT row whose price is not a number. *)
Definition btc_bad_price : gmap string (cell (@num pandas)) :=
  trade (CStr "BTC-USDT") (CTime 0) (CStr "BUY") (CNum 2) (CStr "abc")
    (CNum 100000) (CNum 83).

Definition sheet_bad_price : @frame pandas := Frame header_rate [btc_bad_price].





Definition sheet_short : @frame pandas := Frame header_short [].

End Samples.

(** ** Shapes of cleaned names *)

(** Some character of the string is alphanumeric. *)
Fixpoint has_alnum (s : string) : bool :=
  match s with
  | EmptyString => false
  | String c r => PyStr.is_alnum c || has_alnum r
  end.

(** What [re_sub_runs] produces: alphanumerics and single underscores;
    [after_us] tells that an underscore may not come next. *)
Fixpoint sub_shape (after_us : bool) (u : string) : bool :=
  match u with
  | EmptyString => true
  | String c r =>
      if PyStr.is_alnum c then sub_shape false r
      else Ascii.eqb c "_"%char && negb after_us && sub_shape true r
  end.

Definition nonempty (s : string) : bool :=
  match s with
  | EmptyString => false
  | String _ _ => true
  end.

(** The same, where moreover an underscore is followed by something. *)
Fixpoint inner_shape (after_us : bool) (u : string) : bool :=
  match u with
  | EmptyString => true
  | String c r =>
      if PyStr.is_alnum c then inner_shape false r
      else Ascii.eqb c "_"%char && negb after_us && nonempty r && inner_shape true r
  end.

(** A token: lower-case letters and digits in groups separated by single
    underscores, possibly empty. *)
Fixpoint token_shape (after_us : bool) (t : string) : bool :=
  match t with
  | EmptyString => true
  | String c r =>
      if PyStr.is_lower c || PyStr.is_digit c then token_shape false r
      else Ascii.eqb c "_"%char && negb after_us && nonempty r && token_shape true r
  end.

Definition is_token (t : string) : bool := token_shape true t.

(** * Properties *)

(** ** Facts about the string operations *)

Section StringFacts.

#[local] Arguments String.append : simpl nomatch.

Lemma append_nil_r (s : string) : s +:+ "" = s.
Proof. induction s as [|c r IH]; simpl; [reflexivity | now rewrite IH]. Qed.

Lemma append_assoc (a b c : string) : (a +:+ b) +:+ c = a +:+ (b +:+ c).
Proof. induction a as [|x a IH]; simpl; [reflexivity | now rewrite IH]. Qed.

Lemma append_length (a b : string) :
  String.length (a +:+ b) = (String.length a + String.length b)%nat.
Proof.
  induction a as [|x a IH]; [reflexivity |].
  simpl. now rewrite IH.
Qed.




(** [contains] decides the occurrence of a character. *)
Lemma contains_iff (ch : ascii) (s : string) :
  PyStr.contains ch s = true <-> exists a b, s = a +:+ String ch b.
Proof.
  induction s as [|c r IH]; simpl.
  - split; [discriminate | intros [[|x a] [b Hb]]; discriminate].
  - rewrite orb_true_iff, Ascii.eqb_eq, IH. split.
    + intros [-> | (a & b & ->)].
      * now exists "", r.
      * now exists (String c a), b.
    + intros ([|x a] & b & Hb); simpl in Hb; injection Hb as -> ->.
      * now left.
      * right. now exists a, b.
Qed.

(** The shape of a split: one piece exactly when the separator is absent. *)
Lemma split_shape (sep : ascii) (s : string) :
  match PyStr.split sep s with
  | [] => False
  | [h] => PyStr.contains sep s = false /\ h = s
  | _ :: _ :: _ => PyStr.contains sep s = true
  end.
Proof.
  induction s as [|c r IH]; simpl; [auto |].
  destruct (Ascii.eqb c sep) eqn:E; simpl.
  - destruct (PyStr.split sep r) as [|h [|h2 t]]; [contradiction | reflexivity ..].
  - destruct (PyStr.split sep r) as [|h [|h2 t]]; [contradiction | |assumption].
    destruct IH as [-> ->]. auto.
Qed.

(** The last piece of a split is what follows the last separator. *)
Lemma split_last (sep : ascii) (s : string) :
  let q := PyStr.last_item (PyStr.split sep s) in
  PyStr.contains sep q = false
  /\ (PyStr.contains sep s = true -> exists a, s = a +:+ String sep q)
  /\ (PyStr.contains sep s = false -> q = s).
Proof.
  unfold PyStr.last_item.
  induction s as [|c r IH]; simpl.
  - repeat split; discriminate.
  - pose proof (split_shape sep r) as Hr.
    destruct IH as (IH1 & IH2 & IH3).
    destruct (Ascii.eqb c sep) eqn:E; simpl.
    + apply Ascii.eqb_eq in E. subst c.
      destruct (PyStr.split sep r) as [|h t] eqn:Hs; [contradiction |].
      change (List.last ("" :: h :: t) "") with (List.last (h :: t) "").
      split; [exact IH1 |]. split; [| discriminate]. intros _.
      destruct (PyStr.contains sep r) eqn:Hc.
      * destruct (IH2 eq_refl) as [a Ha]. exists (String sep a).
        change (String sep a +:+ ?x) with (String sep (a +:+ x)). now rewrite <- Ha.
      * exists "". rewrite (IH3 eq_refl). reflexivity.
    + destruct (PyStr.split sep r) as [|h [|h2 t]] eqn:Hs; [contradiction | |].
      * destruct Hr as [Hc ->]. simpl. rewrite E, Hc. simpl.
        split; [reflexivity |]. split; [discriminate | reflexivity].
      * rewrite Hr in *. change (List.last (String c h :: h2 :: t) "")
          with (List.last (h :: h2 :: t) "").
        split; [exact IH1 |]. split; [| discriminate]. intros _.
        destruct (IH2 eq_refl) as [a Ha]. exists (String c a).
        change (String c a +:+ ?x) with (String c (a +:+ x)). now rewrite <- Ha.
Qed.

Lemma substring_all (s : string) (m : nat) :
  (String.length s <= m)%nat -> String.substring 0 m s = s.
Proof.
  revert m. induction s as [|c r IH]; intros [|m] H; simpl in *; try reflexivity; try lia.
  rewrite IH; [reflexivity | lia].
Qed.

Lemma substring_suffix (s : string) (k : nat) :
  (k <= String.length s)%nat ->
  exists p, s = p +:+ String.substring k (String.length s - k) s
            /\ String.length p = k.
Proof.
  revert k. induction s as [|c r IH]; intros k Hk; simpl in Hk.
  - assert (k = 0%nat) as -> by lia. now exists "".
  - destruct k as [|k].
    + exists "". split; [| reflexivity]. simpl. rewrite substring_all; auto.
    + destruct (IH k ltac:(lia)) as (p & Hp & Hl).
      exists (String c p). simpl. rewrite <- Hp, Hl. auto.
Qed.

(** [s[-n:]] is a suffix of [s], of length [min n (len s)]. *)
Lemma last_chars_suffix (n : nat) (s : string) :
  (exists p, s = p +:+ PyStr.last_chars n s)
  /\ String.length (PyStr.last_chars n s) = Nat.min n (String.length s).
Proof.
  unfold PyStr.last_chars.
  destruct (Nat.le_gt_cases (String.length s) n) as [H | H].
  - replace (String.length s - n)%nat with 0%nat by lia.
    rewrite substring_all by assumption.
    split; [now exists "" | lia].
  - destruct (substring_suffix s (String.length s - n) ltac:(lia)) as (p & Hp & Hl).
    replace (String.length s - (String.length s - n))%nat with n in Hp by lia.
    split; [now exists p |].
    apply (f_equal String.length) in Hp. rewrite append_length, Hl in Hp. lia.
Qed.

(** [first_suffix] returns the first listed suffix of [s]. *)
Lemma first_suffix_some (s q : string) (quotes : list string) :
  first_suffix s quotes = Some q <->
  exists before after,
    quotes = (before ++ q :: after)%list
    /\ PyStr.endswith s q = true
    /\ Forall (fun k => PyStr.endswith s k = false) before.
Proof.
  induction quotes as [|k ks IH]; simpl.
  - split; [discriminate | intros ([|? ?] & ? & ? & _); discriminate].
  - destruct (PyStr.endswith s k) eqn:E.
    + split.
      * intros [= ->]. exists [], ks. auto.
      * intros ([|b bs] & after & Heq & Hq & Hall); injection Heq as -> ->; [reflexivity |].
        apply Forall_cons_iff in Hall as [Hb _]. congruence.
    + rewrite IH. split.
      * intros (before & after & -> & Hq & Hall). exists (k :: before), after. auto.
      * intros ([|b bs] & after & Heq & Hq & Hall); injection Heq as -> ->; [congruence |].
        apply Forall_cons_iff in Hall as [_ Hall]. eauto.
Qed.


End StringFacts.

(** ** Quote extraction *)

Section QuoteExtraction.


End QuoteExtraction.

(** ** Header resolution *)

Section HeaderResolution.

Lemma find_clean_some (token c : string) (cols : list string) :
  find_clean token cols = Some c <->
  exists cs1 cs2,
    cols = (cs1 ++ c :: cs2)%list
    /\ clean_name c = token
    /\ Forall (fun x => clean_name x <> token) cs1.
Proof.
  induction cols as [|x xs IH]; cbn [find_clean].
  - split; [discriminate | intros ([|? ?] & ? & ? & _); discriminate].
  - destruct (String.eqb_spec (clean_name x) token) as [Heq | Hne].
    + split.
      * intros [= ->]. exists [], xs. auto.
      * intros ([|y cs1] & cs2 & Hc & Ht & Hall); injection Hc as -> ->; [reflexivity |].
        apply Forall_cons_iff in Hall as [Hy _]. contradiction.
    + rewrite IH. split.
      * intros (cs1 & cs2 & -> & Ht & Hall). exists (x :: cs1), cs2. auto.
      * intros ([|y cs1] & cs2 & Hc & Ht & Hall); injection Hc as -> ->; [contradiction |].
        apply Forall_cons_iff in Hall as [_ Hall]. eauto.
Qed.

Lemma find_clean_none (token : string) (cols : list string) :
  find_clean token cols = None <-> Forall (fun x => clean_name x <> token) cols.
Proof.
  induction cols as [|x xs IH]; cbn [find_clean].
  - split; auto.
  - destruct (String.eqb_spec (clean_name x) token) as [Heq | Hne].
    + split; [discriminate |]. intros H. apply Forall_cons_iff in H as [H _]. contradiction.
    + rewrite IH. split; [auto |]. intros H. now apply Forall_cons_iff in H as [_ H].
Qed.

Lemma find_col_none (cols patterns : list string) :
  find_col cols patterns = None <-> unmatched cols patterns.
Proof.
  unfold unmatched. induction patterns as [|p ps IH]; cbn [find_col].
  - split; auto.
  - destruct (find_clean (clean_name p) cols) as [c|] eqn:E.
    + split; [discriminate |]. intros H. apply Forall_cons_iff in H as [H _].
      apply find_clean_none in H. congruence.
    + apply find_clean_none in E. rewrite IH. split; [auto |].
      intros H. now apply Forall_cons_iff in H as [_ H].
Qed.

Lemma find_col_some (cols patterns : list string) (c : string) :
  find_col cols patterns = Some c <->
  exists ps1 p ps2 cs1 cs2,
    patterns = (ps1 ++ p :: ps2)%list
    /\ cols = (cs1 ++ c :: cs2)%list
    /\ clean_name c = clean_name p
    /\ Forall (fun x => clean_name x <> clean_name p) cs1
    /\ unmatched cols ps1.
Proof.
  unfold unmatched. induction patterns as [|p ps IH]; cbn [find_col].
  - split; [discriminate | intros ([|? ?] & ? & ? & ? & ? & ? & _); discriminate].
  - destruct (find_clean (clean_name p) cols) as [c'|] eqn:E.
    + split.
      * intros [= ->]. apply find_clean_some in E as (cs1 & cs2 & Hc & Ht & Hall).
        exists [], p, ps, cs1, cs2. auto.
      * intros ([|p' ps1] & p0 & ps2 & cs1 & cs2 & Hp & Hc & Ht & Hall & Hun);
          injection Hp as Hp1 Hp2.
        -- subst p0 ps2.
           assert (find_clean (clean_name p) cols = Some c) as E'
             by (apply find_clean_some; eauto).
           congruence.
        -- subst p'. apply Forall_cons_iff in Hun as [Hun _].
           apply find_clean_none in Hun. congruence.
    + rewrite IH. apply find_clean_none in E. split.
      * intros (ps1 & p0 & ps2 & cs1 & cs2 & -> & Hc & Ht & Hall & Hun).
        exists (p :: ps1), p0, ps2, cs1, cs2.
        split; [reflexivity |]. repeat (split; [assumption |]).
        constructor; assumption.
      * intros ([|p' ps1] & p0 & ps2 & cs1 & cs2 & Hp & Hc & Ht & Hall & Hun);
          injection Hp as Hp1 Hp2.
        -- subst p0 ps2 cols. apply Forall_app in E as [_ E].
           apply Forall_cons_iff in E as [E _]. contradiction.
        -- subst p' ps. apply Forall_cons_iff in Hun as [_ Hun].
           exists ps1, p0, ps2, cs1, cs2. auto.
Qed.

(** A bound column is one of the columns and cleans to the token of one
    of the patterns. *)
Lemma find_col_sound (cols patterns : list string) (c : string) :
  find_col cols patterns = Some c ->
  In c cols /\ In (clean_name c) (List.map clean_name patterns).
Proof.
  intros (ps1 & p & ps2 & cs1 & cs2 & -> & -> & Hc & _)%find_col_some. split.
  - apply in_or_app. right. now left.
  - rewrite List.map_app. apply in_or_app. right. left. now symmetry.
Qed.

Lemma find_col_complete (cols patterns : list string) (c p : string) :
  In c cols -> In p patterns -> clean_name c = clean_name p ->
  exists c', find_col cols patterns = Some c'.
Proof.
  intros Hc Hp Heq. destruct (find_col cols patterns) as [c'|] eqn:E; [eauto |].
  apply find_col_none in E. unfold unmatched in E.
  rewrite List.Forall_forall in E. specialize (E p Hp).
  rewrite List.Forall_forall in E. now destruct (E c Hc).
Qed.

(** The dictionary holds, for each role, what [find_col] found for its
    candidates. *)
Lemma detect_lookup (cols : list string) (role : string) (pats : list string) :
  In (role, pats) candidates ->
  col_get (detect_columns cols) role = find_col cols pats.
Proof.
  unfold candidates. cbn [In].
  intros H. repeat (destruct H as [[= <- <-] | H]; [reflexivity |]). contradiction.
Qed.

End HeaderResolution.

(** ** The validation of the roles *)

Section Validation.
Context {P : Pandas}.

Lemma missing_roles_in (col : gmap string (option string)) (r : string) :
  In r (missing_roles col) <-> In r required /\ col_get col r = None.
Proof.
  unfold missing_roles. rewrite filter_In.
  destruct (col_get col r); intuition congruence.
Qed.

Lemma missing_roles_nil (col : gmap string (option string)) :
  missing_roles col = [] <-> forall r, In r required -> col_get col r <> None.
Proof.
  split.
  - intros Hnil r Hr Hnone.
    assert (In r (missing_roles col)) as Hin by now apply missing_roles_in.
    rewrite Hnil in Hin. contradiction.
  - intros Hall. destruct (missing_roles col) as [|r rs] eqn:E; [reflexivity |].
    assert (In r (missing_roles col)) as Hin by (rewrite E; now left).
    apply missing_roles_in in Hin as [Hr Hnone]. now destruct (Hall r Hr).
Qed.

(** The roles resolve exactly when no required role is missing. *)
Lemma resolve_some_iff (cols : list string) :
  (exists ro, resolve cols = Some ro) <-> missing_roles (detect_columns cols) = [].
Proof.
  rewrite missing_roles_nil. unfold resolve, required.
  generalize (detect_columns cols) as col. intros col. split.
  - intros [ro Hro] r Hr.
    destruct (col_get col "market") eqn:E1; [| discriminate].
    destruct (col_get col "trade_type") eqn:E2; [| discriminate].
    destruct (col_get col "quantity") eqn:E3; [| discriminate].
    destruct (col_get col "price") eqn:E4; [| discriminate].
    destruct (col_get col "total") eqn:E5; [| discriminate].
    destruct (col_get col "date") eqn:E6; [| discriminate].
    cbn [In] in Hr. intuition (subst; congruence).
  - intros Hall.
    destruct (col_get col "market") eqn:E1;
      [| exfalso; apply (Hall "market"); cbn; auto 10].
    destruct (col_get col "trade_type") eqn:E2;
      [| exfalso; apply (Hall "trade_type"); cbn; auto 10].
    destruct (col_get col "quantity") eqn:E3;
      [| exfalso; apply (Hall "quantity"); cbn; auto 10].
    destruct (col_get col "price") eqn:E4;
      [| exfalso; apply (Hall "price"); cbn; auto 10].
    destruct (col_get col "total") eqn:E5;
      [| exfalso; apply (Hall "total"); cbn; auto 10].
    destruct (col_get col "date") eqn:E6;
      [| exfalso; apply (Hall "date"); cbn; auto 10].
    eauto.
Qed.

(** What a resolved record holds. *)
Lemma resolve_fields (cols : list string) (ro : roles) :
  resolve cols = Some ro ->
  let col := detect_columns cols in
  col_get col "market" = Some (mkt_col ro)
  /\ col_get col "trade_type" = Some (tt_col ro)
  /\ col_get col "quantity" = Some (qty_col ro)
  /\ col_get col "price" = Some (price_col ro)
  /\ col_get col "total" = Some (total_col ro)
  /\ col_get col "date" = Some (date_col ro)
  /\ col_get col "usd_inr" = usd_col ro.
Proof.
  unfold resolve. generalize (detect_columns cols) as col. intros col H.
  destruct (col_get col "market"); [| discriminate].
  destruct (col_get col "trade_type"); [| discriminate].
  destruct (col_get col "quantity"); [| discriminate].
  destruct (col_get col "price"); [| discriminate].
  destruct (col_get col "total"); [| discriminate].
  destruct (col_get col "date"); [| discriminate].
  injection H as <-. repeat split; reflexivity.
Qed.

(** With the roles resolved the run is the transformation. *)
Lemma process_resolved (df_raw : frame) (ro : roles) :
  resolve (columns df_raw) = Some ro ->
  process df_raw =
  transform (mkt_col ro) (tt_col ro) (qty_col ro) (price_col ro) (total_col ro)
    (date_col ro) (usd_col ro) df_raw.
Proof.
  intros Hro. unfold process.
  assert (missing_roles (detect_columns (columns df_raw)) = []) as ->
    by (apply resolve_some_iff; eauto).
  apply resolve_fields in Hro as (-> & -> & -> & -> & -> & -> & ->). reflexivity.
Qed.

(** With a role missing the run stops before the transformation. *)
Lemma process_missing (df_raw : frame) :
  let missing := missing_roles (detect_columns (columns df_raw)) in
  missing <> [] ->
  process df_raw =
  ([StError (msg_missing missing); StWarning msg_rename], StoppedMissing missing).
Proof.
  intros missing Hne. unfold process. fold missing.
  destruct missing; [contradiction | reflexivity].
Qed.

End Validation.

(** ** The bound columns are pairwise different *)

Section Separation.

Lemma disjoint_tokens_spec (l1 l2 : list string) (t : string) :
  disjoint_tokens l1 l2 = true -> In t l1 -> In t l2 -> False.
Proof.
  unfold disjoint_tokens. rewrite forallb_forall. intros H H1 H2.
  specialize (H t H1). rewrite forallb_forall in H. specialize (H t H2).
  now rewrite String.eqb_refl in H.
Qed.

Lemma bound_token (cols : list string) (role : string) (pats : list string) (c : string) :
  In (role, pats) candidates ->
  col_get (detect_columns cols) role = Some c ->
  In c cols /\ In (clean_name c) (List.map clean_name pats).
Proof.
  intros Hin Hget. rewrite (detect_lookup cols role pats Hin) in Hget.
  now apply find_col_sound.
Qed.

(** Columns bound to roles whose candidate tokens are disjoint differ. *)
Lemma bound_differ (cols : list string) (r1 r2 : string) (p1 p2 : list string)
    (c1 c2 : string) :
  In (r1, p1) candidates -> In (r2, p2) candidates ->
  disjoint_tokens (List.map clean_name p1) (List.map clean_name p2) = true ->
  col_get (detect_columns cols) r1 = Some c1 ->
  col_get (detect_columns cols) r2 = Some c2 ->
  c1 <> c2.
Proof.
  intros H1 H2 Hdis G1 G2 ->.
  apply (bound_token _ _ _ _ H1) in G1 as [_ T1].
  apply (bound_token _ _ _ _ H2) in G2 as [_ T2].
  exact (disjoint_tokens_spec _ _ _ Hdis T1 T2).
Qed.

(** A bound column is not a name whose token no candidate has. *)
Lemma bound_not (cols : list string) (role : string) (pats : list string)
    (c other : string) :
  In (role, pats) candidates ->
  disjoint_tokens (List.map clean_name pats) [clean_name other] = true ->
  col_get (detect_columns cols) role = Some c ->
  c <> other.
Proof.
  intros H1 Hdis G1 ->.
  apply (bound_token _ _ _ _ H1) in G1 as [_ T1].
  apply (disjoint_tokens_spec _ _ _ Hdis T1). now left.
Qed.

Ltac candidate := unfold candidates; cbn [In]; auto 10.

Ltac differ Hx Hy :=
  first
    [ eapply bound_differ; [ | | | exact Hx | exact Hy ]; [candidate | candidate | reflexivity]
    | eapply bound_not; [ | | exact Hx ]; [candidate | reflexivity]
    | apply not_eq_sym; eapply bound_not; [ | | exact Hy ]; [candidate | reflexivity] ].

(** The columns of a resolved record are columns of the sheet, pairwise
    different, and none is the scratch column or the empty name. *)
Lemma resolve_separated (cols : list string) (ro : roles) :
  resolve cols = Some ro ->
  NoDup (role_columns ro)
  /\ Forall (fun c => In c cols) (List.tl (role_columns ro))
  /\ truthy (usd_col ro) = usd_col ro.
Proof.
  intros (Hm & Ht & Hq & Hp & Hto & Hd & Hu)%resolve_fields.
  cbv zeta in *. unfold role_columns.
  destruct ro as [m t q p tot d u]; cbn [mkt_col tt_col qty_col price_col total_col
                                          date_col usd_col] in *.
  assert (In m cols /\ In t cols /\ In q cols /\ In p cols /\ In tot cols /\ In d cols)
    as (Im & It & Iq & Ip & Ito & Id).
  { repeat split; eapply bound_token; try eassumption; candidate. }
  assert (m <> "__quote__") by differ Hm Hm.
  assert (t <> "__quote__") by differ Ht Ht.
  assert (q <> "__quote__") by differ Hq Hq.
  assert (p <> "__quote__") by differ Hp Hp.
  assert (tot <> "__quote__") by differ Hto Hto.
  assert (d <> "__quote__") by differ Hd Hd.
  assert (m <> t) by differ Hm Ht.
  assert (m <> q) by differ Hm Hq.
  assert (m <> p) by differ Hm Hp.
  assert (m <> tot) by differ Hm Hto.
  assert (m <> d) by differ Hm Hd.
  assert (t <> q) by differ Ht Hq.
  assert (t <> p) by differ Ht Hp.
  assert (t <> tot) by differ Ht Hto.
  assert (t <> d) by differ Ht Hd.
  assert (q <> p) by differ Hq Hp.
  assert (q <> tot) by differ Hq Hto.
  assert (q <> d) by differ Hq Hd.
  assert (p <> tot) by differ Hp Hto.
  assert (p <> d) by differ Hp Hd.
  assert (tot <> d) by differ Hto Hd.
  destruct u as [u|].
  - assert (In u cols) as Iu by (eapply bound_token; try eassumption; candidate).
    assert (u <> "__quote__") by differ Hu Hu.
    assert (u <> "") as Hne by differ Hu Hu.
    assert (m <> u) by differ Hm Hu.
    assert (t <> u) by differ Ht Hu.
    assert (q <> u) by differ Hq Hu.
    assert (p <> u) by differ Hp Hu.
    assert (tot <> u) by differ Hto Hu.
    assert (d <> u) by differ Hd Hu.
    split; [| split].
    + repeat (apply NoDup_cons_2;
              [rewrite ?not_elem_of_cons; repeat split;
               first [apply not_elem_of_nil | congruence] |]).
      apply NoDup_nil_2.
    + cbn [List.tl]. repeat (constructor; [assumption |]). constructor.
    + cbn [truthy]. apply String.eqb_neq in Hne. now rewrite Hne.
  - split; [| split].
    + repeat (apply NoDup_cons_2;
              [rewrite ?not_elem_of_cons; repeat split;
               first [apply not_elem_of_nil | congruence] |]).
      apply NoDup_nil_2.
    + cbn [List.tl]. repeat (constructor; [assumption |]). constructor.
    + reflexivity.
Qed.

End Separation.

(** ** Rows and the row-wise reading of the script *)

Section RowFacts.
Context {P : Pandas}.

Lemma row_get_insert_eq (c : string) (v : cell num) (r : row) :
  row_get c (<[c := v]> r) = v.
Proof. unfold row_get. now rewrite lookup_insert_eq. Qed.

Lemma row_get_insert_ne (c k : string) (v : cell num) (r : row) :
  k <> c -> row_get c (<[k := v]> r) = row_get c r.
Proof. intros H. unfold row_get. now rewrite lookup_insert_ne. Qed.

Lemma row_get_delete_ne (c k : string) (r : row) :
  k <> c -> row_get c (delete k r) = row_get c r.
Proof. intros H. unfold row_get. now rewrite lookup_delete_ne. Qed.

Lemma row_get_delete_eq (c : string) (r : row) : row_get c (delete c r) = CNaN.
Proof. unfold row_get. now rewrite lookup_delete_eq. Qed.

(** The frame of mirrored rows is the row-wise image of the non-INR
    rows, and the only message of this step is the one of line 145. *)
Lemma mirror_rows (ro : roles) (df : frame) :
  let out :=
    mirror (mkt_col ro) (tt_col ro) (qty_col ro) (price_col ro) (total_col ro)
      (usd_col ro) df in
  rows (fst out) = List.map (mirror_row ro) (rows df)
  /\ snd out = match truthy (usd_col ro) with
               | Some _ => []
               | None => [StWarning msg_no_rate]
               end.
Proof.
  unfold mirror, convert, mirror_row, convert_row.
  destruct (truthy (usd_col ro)) as [u|]; cbn [fst snd rows assign drop];
    rewrite !List.map_map; split; reflexivity.
Qed.

End RowFacts.

Ltac rowsimpl :=
  repeat first
    [ rewrite row_get_insert_eq
    | rewrite row_get_insert_ne by congruence
    | rewrite row_get_delete_ne by congruence ].

Ltac unpack_nodup H :=
  unfold role_columns in H;
  cbn [mkt_col tt_col qty_col price_col total_col date_col usd_col] in H;
  repeat (let Hn := fresh "Hn" in apply NoDup_cons in H as [Hn H]);
  repeat match goal with
         | Hn : _ ∉ _ :: _ |- _ =>
             let Hd := fresh "Hd" in apply not_elem_of_cons in Hn as [Hd Hn]
         end.

Section MirrorRow.
Context {P : Pandas}.

(** The fields of a mirrored row when a rate column is bound. *)
Lemma mirror_row_rate (ro : roles) (u : string) (r : row) :
  NoDup (role_columns ro) -> usd_col ro = Some u -> u <> "" ->
  let m := mirror_row ro r in
  row_get (mkt_col ro) m
  = CStr (extract_quote (cell_str (row_get (mkt_col ro) r)) +:+ "INR")
  /\ row_get (tt_col ro) m
     = CStr (flip (PyStr.upper (cell_str (row_get (tt_col ro) r))))
  /\ row_get (qty_col ro) m = row_get (qty_col ro) r
  /\ row_get (price_col ro) m
     = mul_numeric (row_get (price_col ro) r) (row_get u r)
  /\ row_get (total_col ro) m
     = mul_numeric (row_get (total_col ro) r) (row_get u r)
  /\ row_get u m = CNum num_one
  /\ row_get (date_col ro) m = row_get (date_col ro) r.
Proof.
  intros Hsep Hu Hne. unfold mirror_row, convert_row.
  destruct ro as [mk t q p tot d usd]. cbn in Hu. subst usd.
  cbn [mkt_col tt_col qty_col price_col total_col date_col usd_col truthy].
  apply String.eqb_neq in Hne. rewrite Hne.
  unpack_nodup Hsep. cbv zeta.
  repeat split; rowsimpl; reflexivity.
Qed.

(** The fields of a mirrored row when no rate column is bound. *)
Lemma mirror_row_no_rate (ro : roles) (r : row) :
  NoDup (role_columns ro) -> usd_col ro = None ->
  let m := mirror_row ro r in
  row_get (mkt_col ro) m
  = CStr (extract_quote (cell_str (row_get (mkt_col ro) r)) +:+ "INR")
  /\ row_get (tt_col ro) m
     = CStr (flip (PyStr.upper (cell_str (row_get (tt_col ro) r))))
  /\ row_get (qty_col ro) m = row_get (qty_col ro) r
  /\ row_get (price_col ro) m = row_get (price_col ro) r
  /\ row_get (total_col ro) m = row_get (total_col ro) r
  /\ row_get (date_col ro) m = row_get (date_col ro) r.
Proof.
  intros Hsep Hu. unfold mirror_row, convert_row.
  destruct ro as [mk t q p tot d usd]. cbn in Hu. subst usd.
  cbn [mkt_col tt_col qty_col price_col total_col date_col usd_col truthy].
  unpack_nodup Hsep. cbv zeta.
  repeat split; rowsimpl; reflexivity.
Qed.

(** A column that is not one of the script's is copied. *)
Lemma mirror_row_other (ro : roles) (r : row) (c : string) :
  ~ In c (role_columns ro) -> truthy (usd_col ro) = usd_col ro ->
  row_get c (mirror_row ro r) = row_get c r.
Proof.
  intros Hc Ht. unfold mirror_row, convert_row. rewrite Ht.
  destruct ro as [mk t q p tot d usd]. unfold role_columns in Hc.
  cbn [mkt_col tt_col qty_col price_col total_col date_col usd_col] in *.
  rewrite <- list_elem_of_In in Hc.
  destruct usd as [u|]; rewrite ?not_elem_of_cons in Hc; destruct_and?; cbv zeta;
    rowsimpl; reflexivity.
Qed.


End MirrorRow.

(** ** Sorting *)

Section Sorting.
Context {P : Pandas}.

Lemma insert_sorted_perm (key : row -> Z) (r : row) (l : list row) :
  Permutation (insert_sorted key r l) (r :: l).
Proof.
  induction l as [|x xs IH]; cbn [insert_sorted]; [reflexivity |].
  destruct (key r <=? key x)%Z; [reflexivity |].
  rewrite IH. apply perm_swap.
Qed.

Lemma sort_rows_perm (key : row -> Z) (l : list row) :
  Permutation (sort_rows key l) l.
Proof.
  unfold sort_rows. induction l as [|x xs IH]; cbn [fold_right]; [reflexivity |].
  rewrite insert_sorted_perm. now apply perm_skip.
Qed.

Lemma insert_sorted_sorted (key : row -> Z) (r : row) (l : list row) :
  StronglySorted (fun a b => (key a <= key b)%Z) l ->
  StronglySorted (fun a b => (key a <= key b)%Z) (insert_sorted key r l).
Proof.
  induction 1 as [|x xs Hs IH Hall]; cbn [insert_sorted].
  - repeat constructor.
  - destruct (Z.leb_spec (key r) (key x)) as [Hle | Hgt].
    + constructor; [now constructor |].
      constructor; [exact Hle |].
      eapply List.Forall_impl; [| exact Hall]. cbn. intros; lia.
    + constructor; [exact IH |].
      rewrite insert_sorted_perm.
      constructor; [lia | exact Hall].
Qed.

Lemma sort_rows_sorted (key : row -> Z) (l : list row) :
  StronglySorted (fun a b => (key a <= key b)%Z) (sort_rows key l).
Proof.
  unfold sort_rows. induction l as [|x xs IH]; cbn [fold_right].
  - constructor.
  - now apply insert_sorted_sorted.
Qed.

(** A mask and its complement split a list. *)
Lemma filter_split_perm (p : row -> bool) (l : list row) :
  Permutation (List.filter p l ++ List.filter (fun r => negb (p r)) l) l.
Proof.
  induction l as [|x xs IH]; cbn [List.filter]; [reflexivity |].
  destruct (p x); cbn [negb app].
  - now apply perm_skip.
  - rewrite <- Permutation_middle. now apply perm_skip.
Qed.

(** [sort_values] permutes the rows. *)
Lemma sort_values_perm (c : string) (df : frame) :
  Permutation (rows (sort_values c df)) (rows df).
Proof.
  unfold sort_values. cbn [rows].
  rewrite sort_rows_perm. apply filter_split_perm.
Qed.

End Sorting.

(** ** The transformation *)

Section Transformation.
Context {P : Pandas}.

Lemma has_key_coerce (ro : roles) (r : row) :
  has_key (date_col ro) (coerce_row ro r)
  = match parsed_date ro r with Some _ => true | None => false end.
Proof.
  unfold has_key, time_key, coerce_row, coerce_datetime, parsed_date.
  rewrite row_get_insert_eq. now destruct (to_datetime _).
Qed.

Lemma time_key_coerce (ro : roles) (r : row) :
  time_key (date_col ro) (coerce_row ro r) = parsed_date ro r.
Proof.
  unfold time_key, coerce_row, coerce_datetime, parsed_date.
  rewrite row_get_insert_eq. now destruct (to_datetime _).
Qed.

Lemma coerce_row_other (ro : roles) (r : row) (c : string) :
  c <> date_col ro -> row_get c (coerce_row ro r) = row_get c r.
Proof. intros H. unfold coerce_row. now rewrite row_get_insert_ne by congruence. Qed.

Lemma coerce_row_date (ro : roles) (r : row) :
  row_get (date_col ro) (coerce_row ro r)
  = coerce_datetime (row_get (date_col ro) r).
Proof. unfold coerce_row. now rewrite row_get_insert_eq. Qed.

(** The two ways the transformation ends. *)
Lemma transform_outcome (ro : roles) (df : frame) :
  let run :=
    transform (mkt_col ro) (tt_col ro) (qty_col ro) (price_col ro) (total_col ro)
      (date_col ro) (usd_col ro) df in
  (non_inr_rows ro df = []
   /\ run = ([StInfo msg_nothing_to_mirror], StoppedOriginal df))
  \/ (non_inr_rows ro df <> []
      /\ exists final,
          run = (completed_log ro, Completed final)
          /\ rows final
             = (sort_rows (key_or_zero (date_col ro))
                  (List.filter (dated ro) (coerced_rows ro df))
                ++ List.filter (fun r => negb (dated ro r)) (coerced_rows ro df))%list).
Proof.
  intros run. subst run. unfold transform, non_inr_rows, is_empty.
  set (sel := select (fun r => negb (is_inr (mkt_col ro) r)) df).
  change (List.filter (fun r => negb (is_inr (mkt_col ro) r)) (rows df))
    with (rows sel).
  pose proof (mirror_rows ro sel) as Hm. cbv zeta in Hm.
  destruct (rows sel) as [|x xs] eqn:Hsel.
  - left. split; reflexivity.
  - right. split; [discriminate |].
    destruct (mirror (mkt_col ro) (tt_col ro) (qty_col ro) (price_col ro)
                (total_col ro) (usd_col ro) sel) as [mirrored warnings].
    cbn [fst snd] in Hm. destruct Hm as [Hrows Hwarn].
    eexists. split; [unfold completed_log; rewrite Hwarn; reflexivity |].
    unfold sort_by_date, sort_values, assign, concat, coerced_rows, concat_rows, dated.
    cbn [rows]. rewrite Hrows.
    change (List.filter (fun r => negb (is_inr (mkt_col ro) r)) (rows df))
      with (rows sel).
    rewrite Hsel. reflexivity.
Qed.

End Transformation.

(** ** The outcome of a run with resolved roles *)

Section Outcome.
Context {P : Pandas}.

Lemma strongly_sorted_refine (R R' : row -> row -> Prop) (Q : row -> Prop)
    (l : list row) :
  (forall a b, Q a -> Q b -> R a b -> R' a b) ->
  Forall Q l -> StronglySorted R l -> StronglySorted R' l.
Proof.
  intros Href Hq Hs. induction Hs as [|x xs Hs IH Hall]; [constructor |].
  apply Forall_cons_iff in Hq as [Hx Hxs].
  constructor; [now apply IH |].
  rewrite List.Forall_forall in *. intros y Hy. apply Href; auto.
Qed.

Lemma filter_map_swap (f : row -> row) (p q : row -> bool) (l : list row) :
  (forall r, p (f r) = q r) ->
  List.filter p (List.map f l) = List.map f (List.filter q l).
Proof.
  intros H. induction l as [|x xs IH]; cbn [List.map List.filter]; [reflexivity |].
  rewrite H. destruct (q x); cbn [List.map]; now rewrite IH.
Qed.


Lemma filter_all_false (p : row -> bool) (l : list row) :
  (forall r, In r l -> p r = false) -> List.filter p l = [].
Proof.
  induction l as [|x xs IH]; intros H; cbn [List.filter]; [reflexivity |].
  rewrite (H x) by now left. apply IH. intros r Hr. apply H. now right.
Qed.

Lemma filter_all_true (p : row -> bool) (l : list row) :
  (forall r, In r l -> p r = true) -> List.filter p l = l.
Proof.
  induction l as [|x xs IH]; intros H; cbn [List.filter]; [reflexivity |].
  rewrite (H x) by now left. f_equal. apply IH. intros r Hr. apply H. now right.
Qed.

Lemma dated_coerce (ro : roles) (r : row) :
  dated ro (coerce_row ro r) = parses ro r.
Proof. unfold dated, parses. apply has_key_coerce. Qed.


(** A run with resolved roles ends in one of two ways; when it goes
    through, its rows are the dated rows of the coerced table in
    ascending order and then the others in the order of line 150. *)
Lemma process_outcome (df_raw : frame) (ro : roles) :
  resolve (columns df_raw) = Some ro ->
  (non_inr_rows ro df_raw = []
   /\ process df_raw = ([StInfo msg_nothing_to_mirror], StoppedOriginal df_raw))
  \/ (non_inr_rows ro df_raw <> []
      /\ exists final,
          process df_raw = (completed_log ro, Completed final)
          /\ rows final
             = (sort_rows (key_or_zero (date_col ro))
                  (List.map (coerce_row ro)
                     (List.filter (parses ro) (concat_rows ro df_raw)))
                ++ List.map (coerce_row ro)
                     (List.filter (fun r => negb (parses ro r))
                        (concat_rows ro df_raw)))%list).
Proof.
  intros Hro. rewrite (process_resolved df_raw ro Hro).
  destruct (transform_outcome ro df_raw) as [[Hnone Hrun] | [Hsome (final & Hrun & Hrows)]].
  - left. auto.
  - right. split; [exact Hsome |]. exists final. split; [exact Hrun |].
    rewrite Hrows. unfold coerced_rows.
    rewrite (filter_map_swap (coerce_row ro) (dated ro) (parses ro))
      by apply dated_coerce.
    rewrite (filter_map_swap (coerce_row ro) (fun r => negb (dated ro r))
               (fun r => negb (parses ro r)))
      by (intros r; now rewrite dated_coerce).
    reflexivity.
Qed.

(** The rows of a completed run are those of the coerced table. *)
Lemma completed_perm (df_raw : frame) (ro : roles) (final : frame) (log : list message) :
  resolve (columns df_raw) = Some ro ->
  process df_raw = (log, Completed final) ->
  Permutation (rows final) (coerced_rows ro df_raw)
  /\ non_inr_rows ro df_raw <> []
  /\ log = completed_log ro.
Proof.
  intros Hro Hrun.
  destruct (process_outcome df_raw ro Hro) as [[_ H] | [Hsome (f & H & Hrows)]];
    rewrite H in Hrun; [discriminate |].
  injection Hrun as <- <-. repeat split; [| exact Hsome].
  rewrite Hrows, sort_rows_perm, <- List.map_app. unfold coerced_rows.
  apply Permutation_map, filter_split_perm.
Qed.

End Outcome.

(** ** The columns of the output *)

Section Columns.
Context {P : Pandas}.

Lemma has_column_in (c : string) (cols : list string) :
  has_column c cols = true <-> In c cols.
Proof.
  unfold has_column. rewrite existsb_exists. split.
  - intros (x & Hx & ->%String.eqb_eq). exact Hx.
  - intros H. exists c. split; [exact H | apply String.eqb_refl].
Qed.

Lemma columns_assign (c : string) (f : row -> cell num) (df : frame) (k : string) :
  In k (columns (assign c f df)) -> In k (columns df) \/ k = c.
Proof.
  unfold assign. cbn [columns].
  destruct (has_column c (columns df)); [now left |].
  intros [H | [<- | []]]%in_app_or; auto.
Qed.

Lemma columns_assign_known (c : string) (f : row -> cell num) (df : frame) :
  In c (columns df) -> columns (assign c f df) = columns df.
Proof.
  intros H. unfold assign. cbn [columns].
  apply has_column_in in H. now rewrite H.
Qed.

Lemma columns_drop (c : string) (df : frame) (k : string) :
  In k (columns (drop c df)) -> In k (columns df) /\ k <> c.
Proof.
  unfold drop. cbn [columns]. rewrite filter_In.
  intros [H Hne]. split; [exact H |].
  intros ->. now rewrite String.eqb_refl in Hne.
Qed.

(** The mirrored frame has no column that the sheet lacks. *)
Lemma columns_mirror (ro : roles) (df : frame) (cols : list string) (k : string) :
  columns df = cols ->
  Forall (fun c => In c cols) (List.tl (role_columns ro)) ->
  truthy (usd_col ro) = usd_col ro ->
  In k (columns (fst (mirror (mkt_col ro) (tt_col ro) (qty_col ro) (price_col ro)
                        (total_col ro) (usd_col ro) df))) ->
  In k cols.
Proof.
  intros Hcols Hin Htruthy. unfold mirror, convert. rewrite Htruthy.
  unfold role_columns in Hin. cbn [List.tl] in Hin.
  rewrite List.Forall_forall in Hin.
  assert (forall c, In c [mkt_col ro; tt_col ro; qty_col ro; price_col ro;
                          total_col ro] -> In c cols) as Hreq.
  { intros c Hc. apply Hin. cbn [In] in *. intuition auto. }
  destruct (usd_col ro) as [u|] eqn:Hu; cbn [fst]; intros Hk.
  - assert (In u cols) as Hucols by (apply Hin; cbn [In]; auto 10).
    apply columns_drop in Hk as [Hk Hne].
    repeat (apply columns_assign in Hk as [Hk | ->];
            [| solve [exact Hucols | apply Hreq; cbn [In]; auto 10]]).
    first [ now rewrite <- Hcols
          | apply columns_assign in Hk as [Hk | ->];
            [now rewrite <- Hcols | contradiction] ].
  - apply columns_drop in Hk as [Hk Hne].
    repeat (apply columns_assign in Hk as [Hk | ->];
            [| solve [apply Hreq; cbn [In]; auto 10]]).
    first [ now rewrite <- Hcols
          | apply columns_assign in Hk as [Hk | ->];
            [now rewrite <- Hcols | contradiction] ].
Qed.

(** A completed run keeps the header of the sheet, so the roles of the
    output are those of the sheet. *)
Lemma completed_columns (df_raw : frame) (ro : roles) (out : frame) :
  resolve (columns df_raw) = Some ro ->
  snd (process df_raw) = Completed out ->
  columns out = columns df_raw.
Proof.
  intros Hro Hout. rewrite (process_resolved df_raw ro Hro) in Hout.
  destruct (resolve_separated _ _ Hro) as (_ & Hin & Htruthy).
  unfold transform in Hout.
  set (sel := select (fun r => negb (is_inr (mkt_col ro) r)) df_raw) in *.
  destruct (is_empty sel); [discriminate |].
  pose proof (fun k => columns_mirror ro sel (columns df_raw) k eq_refl Hin Htruthy)
    as Hsub.
  destruct (mirror (mkt_col ro) (tt_col ro) (qty_col ro) (price_col ro)
              (total_col ro) (usd_col ro) sel) as [mirrored warnings].
  cbn [fst snd] in *. injection Hout as <-.
  assert (columns (concat df_raw mirrored) = columns df_raw) as Hconcat.
  { unfold concat. cbn [columns].
    assert (List.filter (fun k => negb (has_column k (columns df_raw)))
              (columns mirrored) = []) as ->; [| apply app_nil_r].
    induction (columns mirrored) as [|k ks IH]; [reflexivity |].
    cbn [List.filter].
    assert (has_column k (columns df_raw) = true) as ->
      by (apply has_column_in, Hsub; now left).
    cbn [negb]. apply IH. intros k' Hk'. apply Hsub. now right. }
  unfold sort_by_date, sort_values. cbn [columns].
  rewrite columns_assign_known; [exact Hconcat |].
  rewrite Hconcat. unfold role_columns in Hin. cbn [List.tl] in Hin.
  rewrite List.Forall_forall in Hin. apply Hin. cbn [In]. auto 10.
Qed.

End Columns.

(** ** Claims on the header resolver *)

Section ResolverClaims.
Context {P : Pandas}.

(** C9.  A role is bound to a column exactly when the column and one of
    the role's candidates clean to the same token; the bound column is the
    first match, trying the candidates in their order and for each
    candidate the columns from left to right.  Cleaning is not a substring
    test: [Total Amount] is no match for [total].  Whenever every required
    role has such a match among the columns, no role is missing and the
    roles resolve to what [find_col] finds for each. *)
Theorem header_resolution (orig_cols : list string) :
  (forall patterns c,
      find_col orig_cols patterns = Some c <->
      exists ps1 p ps2 cs1 cs2,
        patterns = (ps1 ++ p :: ps2)%list
        /\ orig_cols = (cs1 ++ c :: cs2)%list
        /\ clean_name c = clean_name p
        /\ Forall (fun x => clean_name x <> clean_name p) cs1
        /\ unmatched orig_cols ps1)
  /\ (forall patterns,
         find_col orig_cols patterns = None <-> unmatched orig_cols patterns)
  /\ clean_name " Trade-Type " = clean_name "trade_type"
  /\ find_col ["Total Amount"] ["total"] = None
  /\ ((forall role pats,
          In (role, pats) candidates -> In role required ->
          exists c p, In c orig_cols /\ In p pats /\ clean_name c = clean_name p) ->
      missing_roles (detect_columns orig_cols) = []
      /\ exists ro,
          resolve orig_cols = Some ro
          /\ find_col orig_cols ["market"; "pair"; "market_2"] = Some (mkt_col ro)
          /\ find_col orig_cols ["date"; "trade date"; "trade_date"]
             = Some (date_col ro)
          /\ find_col orig_cols ["trade type"; "trade_type"; "side"; "action"]
             = Some (tt_col ro)
          /\ find_col orig_cols ["quantity"; "qty"; "totalvolume"; "total_volume"]
             = Some (qty_col ro)
          /\ find_col orig_cols ["price"; "final price"; "rate"; "actualrate"]
             = Some (price_col ro)
          /\ find_col orig_cols ["total"; "amount"; "total_inr"; "gross_amount"]
             = Some (total_col ro)).
Proof.
  split; [intros patterns c; apply find_col_some |].
  split; [intros patterns; apply find_col_none |].
  split; [reflexivity |]. split; [reflexivity |].
  intros Hmatch.
  assert (missing_roles (detect_columns orig_cols) = []) as Hnil.
  { apply missing_roles_nil. intros role Hrole Hnone.
    assert (exists pats, In (role, pats) candidates) as [pats Hin].
    { unfold required, candidates in *. cbn [In] in Hrole |- *.
      repeat (destruct Hrole as [<- | Hrole]; [eexists; eauto 10 |]). contradiction. }
    destruct (Hmatch role pats Hin Hrole) as (c & p & Hc & Hp & Heq).
    destruct (find_col_complete orig_cols pats c p Hc Hp Heq) as [c' Hfound].
    rewrite (detect_lookup orig_cols role pats Hin) in Hnone. congruence. }
  split; [exact Hnil |].
  apply resolve_some_iff in Hnil as [ro Hro]. exists ro. split; [exact Hro |].
  apply resolve_fields in Hro as (Hm & Ht & Hq & Hp & Hto & Hd & _).
  cbv zeta in *.
  rewrite (detect_lookup orig_cols "market" _ ltac:(cbn; auto 10)) in Hm.
  rewrite (detect_lookup orig_cols "trade_type" _ ltac:(cbn; auto 10)) in Ht.
  rewrite (detect_lookup orig_cols "quantity" _ ltac:(cbn; auto 10)) in Hq.
  rewrite (detect_lookup orig_cols "price" _ ltac:(cbn; auto 10)) in Hp.
  rewrite (detect_lookup orig_cols "total" _ ltac:(cbn; auto 10)) in Hto.
  rewrite (detect_lookup orig_cols "date" _ ltac:(cbn; auto 10)) in Hd.
  repeat split; assumption.
Qed.

(** C8.  The missing roles are exactly the required roles without a
    column, all of them; when there is one, the run stops before the
    transformation with one error message that joins them all, and returns
    no table.  The optional role is never among them, and when the six
    required roles are bound the run does not stop this way, whether the
    rate column is bound or not. *)
Theorem missing_required_columns (df_raw : frame) :
  let col := detect_columns (columns df_raw) in
  let missing := missing_roles col in
  (forall r, In r missing <-> In r required /\ col_get col r = None)
  /\ ~ In "usd_inr" missing
  /\ (missing <> [] ->
      process df_raw
      = ([StError ("Required column(s) missing: " +:+ PyStr.join ", " missing);
          StWarning msg_rename],
         StoppedMissing missing))
  /\ ((forall r, In r required -> col_get col r <> None) ->
      forall m, snd (process df_raw) <> StoppedMissing m).
Proof.
  intros col missing. split; [| split; [| split]].
  - intros r. apply missing_roles_in.
  - intros [Hreq _]%missing_roles_in. unfold required in Hreq. cbn [In] in Hreq.
    intuition discriminate.
  - intros Hne. now apply process_missing.
  - intros Hall m Hstop.
    assert (missing_roles (detect_columns (columns df_raw)) = []) as Hnil
      by now apply missing_roles_nil.
    apply resolve_some_iff in Hnil as [ro Hro].
    destruct (process_outcome df_raw ro Hro) as [[_ H] | [_ (f & H & _)]];
      rewrite H in Hstop; discriminate.
Qed.

End ResolverClaims.

Lemma header_resolution_witness :
  missing_roles (detect_columns Samples.header_no_rate) = []
  /\ exists ro,
      resolve Samples.header_no_rate = Some ro
      /\ find_col Samples.header_no_rate ["market"; "pair"; "market_2"]
         = Some (mkt_col ro)
      /\ find_col Samples.header_no_rate ["date"; "trade date"; "trade_date"]
         = Some (date_col ro)
      /\ find_col Samples.header_no_rate ["trade type"; "trade_type"; "side"; "action"]
         = Some (tt_col ro)
      /\ find_col Samples.header_no_rate
           ["quantity"; "qty"; "totalvolume"; "total_volume"]
         = Some (qty_col ro)
      /\ find_col Samples.header_no_rate ["price"; "final price"; "rate"; "actualrate"]
         = Some (price_col ro)
      /\ find_col Samples.header_no_rate
           ["total"; "amount"; "total_inr"; "gross_amount"]
         = Some (total_col ro).
Proof.
  apply (header_resolution Samples.header_no_rate).
  intros role pats Hin Hreq. unfold candidates in Hin. cbn [In] in Hin.
  destruct Hin as [[= <- <-] | Hin]; [exists "Market", "market"; vm_compute; auto |].
  destruct Hin as [[= <- <-] | Hin]; [exists "Date", "date"; vm_compute; auto 10 |].
  destruct Hin as [[= <- <-] | Hin];
    [exists "Trade Type", "trade type"; vm_compute; auto 10 |].
  destruct Hin as [[= <- <-] | Hin];
    [exists "Quantity", "quantity"; vm_compute; auto 10 |].
  destruct Hin as [[= <- <-] | Hin]; [exists "Price", "price"; vm_compute; auto 10 |].
  destruct Hin as [[= <- <-] | Hin]; [exists "Total", "total"; vm_compute; auto 10 |].
  destruct Hin as [[= <- <-] | []].
  unfold required in Hreq. cbn [In] in Hreq. intuition discriminate.
Defined.

Lemma missing_required_columns_witness :
  @process Sheet.pandas Samples.sheet_short
  = ([StError "Required column(s) missing: date, quantity"; StWarning msg_rename],
     StoppedMissing ["date"; "quantity"]).
Proof.
  apply (missing_required_columns (P := Sheet.pandas) Samples.sheet_short).
  vm_compute. discriminate.
Defined.

(** ** Claims on the mirror engine *)

Section EngineClaims.
Context {P : Pandas}.

(** C2.  A run whose required roles are bound ends with a table, either
    the combined table or, when no row is non-INR, the sheet itself; in
    both cases the table has as many rows as the sheet plus one per row
    that the mask of line 108 classifies as non-INR. *)
Theorem row_count (df_raw : frame) (ro : roles) :
  resolve (columns df_raw) = Some ro ->
  exists out,
    (snd (process df_raw) = Completed out
     \/ snd (process df_raw) = StoppedOriginal out)
    /\ length (rows out)
       = (length (rows df_raw) + length (non_inr_rows ro df_raw))%nat
    /\ (snd (process df_raw) = StoppedOriginal out <-> non_inr_rows ro df_raw = [])
    /\ (snd (process df_raw) = StoppedOriginal out -> out = df_raw).
Proof.
  intros Hro.
  destruct (process_outcome df_raw ro Hro) as [[Hnone H] | [Hsome (f & H & Hrows)]].
  - exists df_raw. rewrite H, Hnone. cbn [snd length].
    repeat split; auto; lia.
  - exists f. rewrite H. cbn [snd]. split; [now left |]. split.
    + rewrite Hrows, length_app, sort_rows_perm, <- length_app, <- List.map_app.
      rewrite length_map, filter_split_perm.
      unfold concat_rows. rewrite length_app, length_map. reflexivity.
    + split; [split; [discriminate | contradiction] | discriminate].
Qed.

(** C3, as the code has it.  A row whose market symbol, uppercased, ends
    with INR is not selected for mirroring.  If no row is selected the
    sheet is returned as it is.  Otherwise the output consists of the rows
    of the sheet and of the mirrored rows of the selected rows, each with
    its date cell replaced by its parsed date (the missing date when it
    does not parse); the row is among them with every other cell as in
    the sheet. *)
Theorem inr_rows_pass_through (df_raw : frame) (ro : roles) (r : row) :
  resolve (columns df_raw) = Some ro ->
  In r (rows df_raw) ->
  PyStr.endswith (PyStr.upper (cell_str (row_get (mkt_col ro) r))) "INR" = true ->
  ~ In r (non_inr_rows ro df_raw)
  /\ (forall out, snd (process df_raw) = StoppedOriginal out -> In r (rows out))
  /\ (forall out,
         snd (process df_raw) = Completed out ->
         Permutation (rows out)
           (List.map (coerce_row ro)
              (rows df_raw ++ List.map (mirror_row ro) (non_inr_rows ro df_raw)))
         /\ In (coerce_row ro r) (rows out)
         /\ (forall c, c <> date_col ro ->
                       row_get c (coerce_row ro r) = row_get c r)
         /\ row_get (date_col ro) (coerce_row ro r)
            = coerce_datetime (row_get (date_col ro) r)).
Proof.
  intros Hro Hin Hinr. split; [| split].
  - unfold non_inr_rows. rewrite filter_In. intros [_ Hsel].
    unfold is_inr in Hsel. rewrite Hinr in Hsel. discriminate.
  - intros out Hout.
    destruct (process_outcome df_raw ro Hro) as [[_ H] | [_ (f & H & _)]];
      rewrite H in Hout; [| discriminate].
    now injection Hout as <-.
  - intros out Hout.
    destruct (process df_raw) as [log o] eqn:Hrun. cbn [snd] in Hout. subst o.
    destruct (completed_perm df_raw ro out log Hro Hrun) as (Hperm & _ & _).
    split; [exact Hperm |]. split; [| split].
    + eapply Permutation_in; [symmetry; exact Hperm |].
      unfold coerced_rows, concat_rows. apply in_map, in_or_app. now left.
    + intros c Hc. now apply coerce_row_other.
    + apply coerce_row_date.
Qed.

(** C4, as the code has it.  The rows of a completed run are, first, the
    rows of the combined table whose date parses, in ascending order of
    the parsed date, and then the rows whose date does not parse, in the
    order of the combined table (originals before mirrored rows); every
    row carries its parsed date.  When every date parses the whole output
    is in ascending order. *)
Theorem date_sort (df_raw : frame) (ro : roles) (out : frame) :
  resolve (columns df_raw) = Some ro ->
  snd (process df_raw) = Completed out ->
  exists dated_part,
    rows out
    = (dated_part
       ++ List.map (coerce_row ro)
            (List.filter (fun r => negb (parses ro r)) (concat_rows ro df_raw)))%list
    /\ Permutation dated_part
         (List.map (coerce_row ro)
            (List.filter (parses ro) (concat_rows ro df_raw)))
    /\ StronglySorted (by_date ro) dated_part
    /\ ((forall r, In r (concat_rows ro df_raw) -> parsed_date ro r <> None) ->
        rows out = dated_part /\ StronglySorted (by_date ro) (rows out)).
Proof.
  intros Hro Hout.
  destruct (process_outcome df_raw ro Hro) as [[_ H] | [_ (f & H & Hrows)]];
    rewrite H in Hout; [discriminate |].
  injection Hout as <-.
  set (dated_part :=
         sort_rows (key_or_zero (date_col ro))
           (List.map (coerce_row ro)
              (List.filter (parses ro) (concat_rows ro df_raw)))) in *.
  assert (StronglySorted (by_date ro) dated_part) as Hsorted.
  { apply (strongly_sorted_refine
             (fun a b => (key_or_zero (date_col ro) a <= key_or_zero (date_col ro) b)%Z)
             (by_date ro) (fun a => dated ro a = true)).
    - intros a b Ha Hb Hle. unfold by_date, dated, has_key, key_or_zero in *.
      destruct (time_key (date_col ro) a); [| discriminate].
      destruct (time_key (date_col ro) b); [| discriminate]. exact Hle.
    - apply (Permutation_Forall (symmetry (sort_rows_perm _ _))).
      apply List.Forall_forall. intros x (r & <- & Hr)%in_map_iff.
      apply filter_In in Hr as [_ Hr]. now rewrite dated_coerce.
    - apply sort_rows_sorted. }
  exists dated_part. split; [exact Hrows |].
  split; [apply sort_rows_perm |]. split; [exact Hsorted |].
  intros Hall.
  assert (List.filter (fun r => negb (parses ro r)) (concat_rows ro df_raw) = []) as Hnil.
  { apply filter_all_false. intros r Hr. specialize (Hall r Hr).
    unfold parses. destruct (parsed_date ro r); [reflexivity | contradiction]. }
  rewrite Hrows, Hnil. cbn [List.map]. rewrite app_nil_r. auto.
Qed.



End EngineClaims.

(** ** Conversion *)

Section Conversion.
Context {P : Pandas}.

(** With a rate column bound the converted cells of a mirrored row are
    products of coerced cells, whatever the coercions give. *)
Lemma converted_cells (df_raw : frame) (ro : roles) (u : string) (r : row) :
  resolve (columns df_raw) = Some ro ->
  usd_col ro = Some u ->
  let m := coerce_row ro (mirror_row ro r) in
  row_get (price_col ro) m = mul_numeric (row_get (price_col ro) r) (row_get u r)
  /\ row_get (total_col ro) m = mul_numeric (row_get (total_col ro) r) (row_get u r)
  /\ row_get u m = CNum num_one.
Proof.
  intros Hro Hu m. subst m.
  destruct (resolve_separated _ _ Hro) as (Hsep & _ & Htruthy).
  assert (u <> "") as Hne.
  { intros ->. rewrite Hu in Htruthy. cbn in Htruthy. discriminate. }
  destruct (mirror_row_rate ro u r Hsep Hu Hne) as (_ & _ & _ & Hp & Ht & Hone & _).
  pose proof Hsep as Hsep'. unfold role_columns in Hsep'. rewrite Hu in Hsep'.
  unpack_nodup Hsep'.
  rewrite !coerce_row_other by congruence. auto.
Qed.


End Conversion.

(** C1.  For a non-INR row of a sheet with a bound rate column, when the
    price, the total and the rate of the row coerce to numbers [p], [t]
    and [k], the run completes and its output holds the mirrored row with
    price [p * k], total [t * k] and rate 1.  On the sheet with the single
    row BTC-USDT, BUY, 2, 50000, 100000, 83 the output is that row
    followed by the row USDTINR, SELL, 2, 4150000, 8300000, 1. *)
Theorem mirrored_conversion :
  (forall (P : Pandas) (df_raw : frame) (ro : roles) (u : string) (r : row)
          (p t k : num),
      resolve (columns df_raw) = Some ro ->
      usd_col ro = Some u ->
      In r (non_inr_rows ro df_raw) ->
      to_numeric (row_get (price_col ro) r) = Some p ->
      to_numeric (row_get (total_col ro) r) = Some t ->
      to_numeric (row_get u r) = Some k ->
      exists out,
        snd (process df_raw) = Completed out
        /\ In (coerce_row ro (mirror_row ro r)) (rows out)
        /\ row_get (price_col ro) (coerce_row ro (mirror_row ro r))
           = CNum (num_mul p k)
        /\ row_get (total_col ro) (coerce_row ro (mirror_row ro r))
           = CNum (num_mul t k)
        /\ row_get u (coerce_row ro (mirror_row ro r)) = CNum num_one)
  /\ Sheet.run Samples.sheet_btc
     = ([StSuccess msg_complete],
        Completed
          (Frame Samples.header_rate [Samples.btc_buy; Samples.btc_buy_mirrored])).
Proof.
  split; [| reflexivity].
  intros P df_raw ro u r p t k Hro Hu Hr Hp Ht Hk.
  destruct (process_outcome df_raw ro Hro) as [[Hnone _] | [_ (f & H & _)]].
  - rewrite Hnone in Hr. contradiction.
  - destruct (completed_perm df_raw ro f _ Hro H) as (Hperm & _ & _).
    destruct (converted_cells df_raw ro u r Hro Hu) as (Cp & Ct & Cu).
    exists f. rewrite H. split; [reflexivity |]. split.
    + eapply Permutation_in; [symmetry; exact Hperm |].
      unfold coerced_rows, concat_rows. apply in_map, in_or_app. right.
      now apply in_map.
    + rewrite Cp, Ct, Cu. unfold mul_numeric. rewrite Hp, Ht, Hk. auto.
Qed.

(** C5, on the code.  On a sheet with a bound rate column whose only
    row has the price [abc], the price does not coerce, the mirrored price
    is the missing value, the run completes, and its only message is the
    final success: the warning of line 143 is not shown. *)
Theorem coercion_failure_is_silent :
  resolve (columns Samples.sheet_bad_price) = Some Samples.roles_rate
  /\ @to_numeric Sheet.pandas (row_get "Price" Samples.btc_bad_price) = None
  /\ exists out,
      Sheet.run Samples.sheet_bad_price = ([StSuccess msg_complete], Completed out)
      /\ List.map (row_get "Market") (rows out) = [CStr "BTC-USDT"; CStr "USDTINR"]
      /\ List.map (row_get "Price") (rows out) = [CStr "abc"; CNaN]
      /\ ~ In (StWarning msg_non_numeric) (fst (Sheet.run Samples.sheet_bad_price)).
Proof.
  split; [reflexivity |]. split; [reflexivity |].
  eexists. split; [reflexivity |].
  split; [reflexivity |]. split; [reflexivity |].
  assert (fst (Sheet.run Samples.sheet_bad_price) = [StSuccess msg_complete]) as ->
    by reflexivity.
  intros [H | []]. discriminate.
Qed.

(** ** The claims on sample sheets *)

(** C3 as stated fails twice on the sheet [sheet_inr].  The row
    [inr_undated] ends with INR and is not mirrored, but it is not in the
    output: its date cell [pending] has become the missing date.  The row
    [inr_padded] ends with INR once trimmed, but the mask of line 108 does
    not trim: the row is mirrored, as INRINR. *)
Lemma inr_rows_counterexample :
  In Samples.inr_undated (rows Samples.sheet_inr)
  /\ PyStr.endswith (PyStr.strip (PyStr.upper "USDINR")) "INR" = true
  /\ In Samples.inr_padded (rows Samples.sheet_inr)
  /\ PyStr.endswith (PyStr.strip (PyStr.upper "USDINR ")) "INR" = true
  /\ exists out,
      snd (Sheet.run Samples.sheet_inr) = Completed out
      /\ ~ In Samples.inr_undated (rows out)
      /\ List.map (row_get "Market") (rows out)
         = [CStr "USDINR "; CStr "BTC-USDT"; CStr "INRINR"; CStr "USDTINR";
            CStr "USDINR"]
      /\ List.map (row_get "Date") (rows out)
         = [CTime 0; CTime 0; CTime 0; CTime 0; CNaT].
Proof.
  split; [now left |]. split; [reflexivity |].
  split; [right; now left |]. split; [reflexivity |].
  pose (out := match snd (Sheet.run Samples.sheet_inr) with
                | Completed f => f
                | _ => Samples.sheet_inr
                end).
  exists out. split; [reflexivity |].
  assert (List.map (row_get "Date") (rows out)
          = [CTime 0; CTime 0; CTime 0; CTime 0; CNaT]) as Hdates by reflexivity.
  split; [| split; [reflexivity | exact Hdates]].
  intros Hin. apply (in_map (row_get "Date")) in Hin. rewrite Hdates in Hin.
  cbn [In] in Hin.
  assert (row_get "Date" Samples.inr_undated = @CStr (@num Sheet.pandas) "pending") as Hna
    by reflexivity.
  rewrite Hna in Hin. intuition discriminate.
Qed.

Lemma inr_rows_pass_through_witness :
  ~ In Samples.inr_undated (non_inr_rows Samples.roles_rate Samples.sheet_inr).
Proof.
  apply (inr_rows_pass_through (P := Sheet.pandas) Samples.sheet_inr
           Samples.roles_rate Samples.inr_undated).
  - reflexivity.
  - now left.
  - reflexivity.
Defined.

(** C4 as stated fails on the sheet [sheet_dates]: the date of its first
    row does not parse, and the output is not in the order of the
    combined table: the dated INR row has moved to the front. *)
Lemma date_sort_counterexample :
  @parsed_date Sheet.pandas Samples.roles_rate Samples.btc_undated = None
  /\ List.map (row_get "Market") (concat_rows Samples.roles_rate Samples.sheet_dates)
     = [CStr "BTC-USDT"; CStr "USDINR"; CStr "USDTINR"]
  /\ exists out,
      Sheet.run Samples.sheet_dates = ([StSuccess msg_complete], Completed out)
      /\ List.map (row_get "Market") (rows out)
         = [CStr "USDINR"; CStr "BTC-USDT"; CStr "USDTINR"].
Proof.
  split; [reflexivity |]. split; [reflexivity |].
  eexists. split; reflexivity.
Qed.

Lemma date_sort_witness :
  exists dated_part,
    rows (sort_by_date "Date"
            (concat Samples.sheet_dates
               (fst (mirror "Market" "Trade Type" "Quantity" "Price" "Total"
                       (Some "USD-INR")
                       (select (fun r => negb (is_inr "Market" r))
                          Samples.sheet_dates)))))
    = (dated_part
       ++ List.map (coerce_row Samples.roles_rate)
            (List.filter (fun r => negb (parses Samples.roles_rate r))
               (concat_rows Samples.roles_rate Samples.sheet_dates)))%list
    /\ StronglySorted (by_date Samples.roles_rate) dated_part.
Proof.
  destruct (date_sort (P := Sheet.pandas) Samples.sheet_dates Samples.roles_rate _
              eq_refl eq_refl) as (dated_part & Hrows & _ & Hsorted & _).
  exists dated_part. split; [exact Hrows | exact Hsorted].
Defined.



Lemma row_count_witness :
  exists out,
    (snd (Sheet.run Samples.sheet_inr) = Completed out
     \/ snd (Sheet.run Samples.sheet_inr) = StoppedOriginal out)
    /\ length (rows out)
       = (length (rows Samples.sheet_inr)
          + length (non_inr_rows Samples.roles_rate Samples.sheet_inr))%nat
    /\ (snd (Sheet.run Samples.sheet_inr) = StoppedOriginal out
        <-> non_inr_rows Samples.roles_rate Samples.sheet_inr = [])
    /\ (snd (Sheet.run Samples.sheet_inr) = StoppedOriginal out
        -> out = Samples.sheet_inr).
Proof.
  apply (row_count (P := Sheet.pandas) Samples.sheet_inr Samples.roles_rate).
  reflexivity.
Defined.



Lemma mirrored_conversion_witness :
  exists out,
    snd (Sheet.run Samples.sheet_btc) = Completed out
    /\ In (coerce_row Samples.roles_rate
             (mirror_row Samples.roles_rate Samples.btc_buy)) (rows out)
    /\ row_get "Price"
         (coerce_row Samples.roles_rate
            (mirror_row Samples.roles_rate Samples.btc_buy))
       = CNum 4150000%Z
    /\ row_get "Total"
         (coerce_row Samples.roles_rate
            (mirror_row Samples.roles_rate Samples.btc_buy))
       = CNum 8300000%Z
    /\ row_get "USD-INR"
         (coerce_row Samples.roles_rate
            (mirror_row Samples.roles_rate Samples.btc_buy))
       = CNum 1%Z.
Proof.
  apply (proj1 mirrored_conversion Sheet.pandas Samples.sheet_btc Samples.roles_rate
           "USD-INR" Samples.btc_buy 50000%Z 100000%Z 83%Z).
  - reflexivity.
  - reflexivity.
  - now left.
  - reflexivity.
  - reflexivity.
  - reflexivity.
Defined.


(** ** Cleaned names *)

Section CleanedNames.

#[local] Arguments String.append : simpl nomatch.

Ltac each_char c := destruct c as [[] [] [] [] [] [] [] []].

Lemma alnum_not_underscore (c : ascii) :
  PyStr.is_alnum c = true -> Ascii.eqb c "_" = false /\ Ascii.eqb "_" c = false.
Proof. each_char c; cbv; intros H; (discriminate || auto). Qed.

Lemma to_lower_alnum (c : ascii) :
  PyStr.is_alnum c = true ->
  PyStr.is_lower (PyStr.to_lower c) || PyStr.is_digit (PyStr.to_lower c) = true.
Proof. each_char c; cbv; intros H; (discriminate || reflexivity). Qed.

Lemma to_lower_token_char (c : ascii) :
  PyStr.is_lower c || PyStr.is_digit c = true ->
  PyStr.to_lower c = c /\ PyStr.is_alnum c = true.
Proof. each_char c; cbv; intros H; (discriminate || auto). Qed.

Lemma to_lower_to_upper (c : ascii) :
  PyStr.to_lower (PyStr.to_upper c) = PyStr.to_lower c.
Proof. each_char c; reflexivity. Qed.

Lemma to_upper_to_lower (c : ascii) :
  PyStr.to_upper (PyStr.to_lower c) = PyStr.to_upper c.
Proof. each_char c; reflexivity. Qed.

Lemma to_upper_class (c : ascii) :
  PyStr.is_alnum (PyStr.to_upper c) = PyStr.is_alnum c
  /\ Ascii.eqb "_" (PyStr.to_upper c) = Ascii.eqb "_" c.
Proof. each_char c; split; reflexivity. Qed.

Lemma to_lower_class (c : ascii) :
  PyStr.is_alnum (PyStr.to_lower c) = PyStr.is_alnum c
  /\ Ascii.eqb "_" (PyStr.to_lower c) = Ascii.eqb "_" c.
Proof. each_char c; split; reflexivity. Qed.

Lemma underscore_eq (c : ascii) : Ascii.eqb c "_" = true -> c = "_"%char.
Proof. apply Ascii.eqb_eq. Qed.

(** *** The three steps of [clean_name] *)

Lemma re_sub_runs_shape (b : bool) (s : string) :
  sub_shape b (re_sub_runs b s) = true.
Proof.
  revert b. induction s as [|c r IH]; intros b; cbn [re_sub_runs]; [reflexivity |].
  destruct (PyStr.is_alnum c) eqn:E.
  - cbn [sub_shape]. rewrite E. apply IH.
  - destruct b; [apply IH |]. cbn [sub_shape]. rewrite (IH true). reflexivity.
Qed.

Lemma rstrip_shape (a : bool) (u : string) :
  sub_shape a u = true -> inner_shape a (PyStr.rstrip_with (Ascii.eqb "_") u) = true.
Proof.
  revert a. induction u as [|c r IH]; intros a; cbn [sub_shape PyStr.rstrip_with];
    [reflexivity |].
  destruct (PyStr.is_alnum c) eqn:E.
  - intros H. specialize (IH false H).
    destruct (alnum_not_underscore c E) as [_ Hus].
    destruct (PyStr.rstrip_with (Ascii.eqb "_") r) as [|c' r'] eqn:Hr.
    + rewrite Hus. cbn [inner_shape]. now rewrite E.
    + cbn [inner_shape] in *. now rewrite E.
  - intros [[Hc Ha]%andb_true_iff H]%andb_true_iff. specialize (IH true H).
    apply underscore_eq in Hc. subst c.
    destruct (PyStr.rstrip_with (Ascii.eqb "_") r) as [|c' r'] eqn:Hr.
    + reflexivity.
    + cbn [inner_shape] in *. rewrite E, Ha. exact IH.
Qed.

Lemma inner_shape_start (u : string) :
  inner_shape true u = true -> inner_shape false u = true.
Proof.
  destruct u as [|c r]; [reflexivity |]. cbn [inner_shape].
  destruct (PyStr.is_alnum c); [auto |].
  rewrite andb_false_r. discriminate.
Qed.

Lemma lstrip_fixed (u : string) :
  inner_shape true u = true -> PyStr.lstrip_with (Ascii.eqb "_") u = u.
Proof.
  destruct u as [|c r]; [reflexivity |]. cbn [inner_shape PyStr.lstrip_with].
  destruct (PyStr.is_alnum c) eqn:E.
  - intros _. destruct (alnum_not_underscore c E) as [_ ->]. reflexivity.
  - rewrite andb_false_r. discriminate.
Qed.

Lemma lstrip_shape (u : string) :
  inner_shape false u = true ->
  inner_shape true (PyStr.lstrip_with (Ascii.eqb "_") u) = true.
Proof.
  destruct u as [|c r]; [reflexivity |]. cbn [inner_shape PyStr.lstrip_with].
  destruct (PyStr.is_alnum c) eqn:E.
  - intros H. destruct (alnum_not_underscore c E) as [_ ->].
    cbn [inner_shape]. now rewrite E.
  - intros [[[Hc _]%andb_true_iff _]%andb_true_iff H]%andb_true_iff.
    apply underscore_eq in Hc. subst c. cbn. now rewrite lstrip_fixed.
Qed.

Lemma nonempty_lower (s : string) : nonempty (PyStr.lower s) = nonempty s.
Proof. now destruct s. Qed.

Lemma lower_shape (a : bool) (u : string) :
  inner_shape a u = true -> token_shape a (PyStr.lower u) = true.
Proof.
  revert a. induction u as [|c r IH]; intros a; [reflexivity |].
  cbn [inner_shape]. change (PyStr.lower (String c r))
    with (String (PyStr.to_lower c) (PyStr.lower r)).
  cbn [token_shape]. destruct (PyStr.is_alnum c) eqn:E.
  - intros H. rewrite (to_lower_alnum c E). now apply IH.
  - intros [[[Hc Ha]%andb_true_iff Hn]%andb_true_iff H]%andb_true_iff.
    apply underscore_eq in Hc. subst c. cbn. rewrite Ha, nonempty_lower, Hn.
    now apply IH.
Qed.

(** [clean_name] always returns a token. *)
Lemma clean_name_token (s : string) : is_token (clean_name s) = true.
Proof.
  unfold is_token, clean_name, PyStr.strip_with.
  apply lower_shape, lstrip_shape, rstrip_shape, re_sub_runs_shape.
Qed.

(** *** Tokens are fixed by [clean_name] *)

Lemma token_re_sub (a b : bool) (t : string) :
  token_shape a t = true -> (b = true -> a = true) -> re_sub_runs b t = t.
Proof.
  revert a b. induction t as [|c r IH]; intros a b; [reflexivity |].
  cbn [token_shape re_sub_runs].
  destruct (PyStr.is_lower c || PyStr.is_digit c) eqn:E.
  - intros H _. destruct (to_lower_token_char c E) as [_ ->].
    f_equal. now apply (IH false).
  - intros [[[Hc Ha]%andb_true_iff _]%andb_true_iff H]%andb_true_iff Hb.
    apply underscore_eq in Hc. subst c. cbn.
    destruct b; [destruct a; [discriminate | now specialize (Hb eq_refl)] |].
    f_equal. now apply (IH true).
Qed.

Lemma token_rstrip (a : bool) (t : string) :
  token_shape a t = true -> PyStr.rstrip_with (Ascii.eqb "_") t = t.
Proof.
  revert a. induction t as [|c r IH]; intros a; [reflexivity |].
  cbn [token_shape PyStr.rstrip_with].
  destruct (PyStr.is_lower c || PyStr.is_digit c) eqn:E.
  - intros H. rewrite (IH false H).
    destruct (to_lower_token_char c E) as [_ Hal].
    destruct (alnum_not_underscore c Hal) as [_ ->]. now destruct r.
  - intros [[_ Hn]%andb_true_iff H]%andb_true_iff. rewrite (IH true H).
    destruct r; [discriminate | reflexivity].
Qed.

Lemma token_lstrip (t : string) :
  token_shape true t = true -> PyStr.lstrip_with (Ascii.eqb "_") t = t.
Proof.
  destruct t as [|c r]; [reflexivity |]. cbn [token_shape PyStr.lstrip_with].
  destruct (PyStr.is_lower c || PyStr.is_digit c) eqn:E.
  - intros _. destruct (to_lower_token_char c E) as [_ Hal].
    destruct (alnum_not_underscore c Hal) as [_ ->]. reflexivity.
  - rewrite andb_false_r. discriminate.
Qed.

Lemma token_lower (a : bool) (t : string) :
  token_shape a t = true -> PyStr.lower t = t.
Proof.
  revert a. induction t as [|c r IH]; intros a; [reflexivity |].
  cbn [token_shape]. change (PyStr.lower (String c r))
    with (String (PyStr.to_lower c) (PyStr.lower r)).
  destruct (PyStr.is_lower c || PyStr.is_digit c) eqn:E.
  - intros H. destruct (to_lower_token_char c E) as [-> _]. f_equal. eauto.
  - intros [[[Hc _]%andb_true_iff _]%andb_true_iff H]%andb_true_iff.
    apply underscore_eq in Hc. subst c. f_equal. eauto.
Qed.

Lemma token_fixed (t : string) : is_token t = true -> clean_name t = t.
Proof.
  unfold is_token, clean_name, PyStr.strip_with. intros H.
  rewrite (token_re_sub true false t H) by discriminate.
  rewrite (token_rstrip true t H), (token_lstrip t H). exact (token_lower true t H).
Qed.

End CleanedNames.

(** ** What cleaning keeps and what it forgets *)

Section CleaningFacts.

#[local] Arguments String.append : simpl nomatch.

Ltac each_char c := destruct c as [[] [] [] [] [] [] [] []].

Lemma token_chars (a : bool) (t : string) (c : ascii) :
  token_shape a t = true ->
  In c (list_ascii_of_string t) ->
  PyStr.is_lower c || PyStr.is_digit c = true \/ c = "_"%char.
Proof.
  revert a. induction t as [|x r IH]; intros a; cbn [token_shape list_ascii_of_string In];
    [intros _ [] |].
  destruct (PyStr.is_lower x || PyStr.is_digit x) eqn:E.
  - intros H [<- | Hin]; [now left | eauto].
  - intros [[[Hx _]%andb_true_iff _]%andb_true_iff H]%andb_true_iff [<- | Hin];
      [right; now apply Ascii.eqb_eq | eauto].
Qed.

Lemma token_no_trailing (a : bool) (t r : string) :
  token_shape a t = true -> t <> r +:+ "_".
Proof.
  revert a r. induction t as [|x t' IH]; intros a r H Heq.
  - destruct r; discriminate.
  - destruct r as [|y r'].
    + injection Heq as -> ->. destruct a; discriminate.
    + change (String y r' +:+ "_") with (String y (r' +:+ "_")) in Heq.
      injection Heq as -> Ht. cbn [token_shape] in H.
      destruct (PyStr.is_lower y || PyStr.is_digit y).
      * exact (IH false r' H Ht).
      * apply andb_true_iff in H as [_ H]. exact (IH true r' H Ht).
Qed.

Lemma token_no_double (a : bool) (t x y : string) :
  token_shape a t = true -> t <> x +:+ "__" +:+ y.
Proof.
  revert a x. induction t as [|c t' IH]; intros a x H Heq.
  - destruct x; discriminate.
  - destruct x as [|z x'].
    + change ("" +:+ "__" +:+ y) with (String "_" (String "_" y)) in Heq.
      injection Heq as -> ->. destruct a; discriminate.
    + change (String z x' +:+ "__" +:+ y) with (String z (x' +:+ "__" +:+ y)) in Heq.
      injection Heq as -> Ht. cbn [token_shape] in H.
      destruct (PyStr.is_lower z || PyStr.is_digit z).
      * exact (IH false x' H Ht).
      * apply andb_true_iff in H as [_ H]. exact (IH true x' H Ht).
Qed.

(** *** Cleaning and maps of characters *)

Lemma map_chars_nil (f : ascii -> ascii) (s : string) :
  PyStr.map_chars f s = "" <-> s = "".
Proof. destruct s; split; (reflexivity || discriminate). Qed.

Lemma re_sub_runs_map (f : ascii -> ascii) (b : bool) (s : string) :
  (forall c, PyStr.is_alnum (f c) = PyStr.is_alnum c) ->
  f "_"%char = "_"%char ->
  re_sub_runs b (PyStr.map_chars f s) = PyStr.map_chars f (re_sub_runs b s).
Proof.
  intros Hal Hus. revert b.
  induction s as [|c r IH]; intros b; cbn [PyStr.map_chars re_sub_runs]; [reflexivity |].
  rewrite Hal. destruct (PyStr.is_alnum c).
  - cbn [PyStr.map_chars]. now rewrite IH.
  - destruct b; [apply IH |]. cbn [PyStr.map_chars]. now rewrite IH, Hus.
Qed.

Lemma lstrip_map (f : ascii -> ascii) (s : string) :
  (forall c, Ascii.eqb "_" (f c) = Ascii.eqb "_" c) ->
  PyStr.lstrip_with (Ascii.eqb "_") (PyStr.map_chars f s)
  = PyStr.map_chars f (PyStr.lstrip_with (Ascii.eqb "_") s).
Proof.
  intros Hus. induction s as [|c r IH]; cbn [PyStr.map_chars PyStr.lstrip_with];
    [reflexivity |].
  rewrite Hus. destruct (Ascii.eqb "_" c); [exact IH | reflexivity].
Qed.

Lemma rstrip_map (f : ascii -> ascii) (s : string) :
  (forall c, Ascii.eqb "_" (f c) = Ascii.eqb "_" c) ->
  PyStr.rstrip_with (Ascii.eqb "_") (PyStr.map_chars f s)
  = PyStr.map_chars f (PyStr.rstrip_with (Ascii.eqb "_") s).
Proof.
  intros Hus. induction s as [|c r IH]; cbn [PyStr.map_chars PyStr.rstrip_with];
    [reflexivity |].
  rewrite IH, Hus.
  destruct (PyStr.rstrip_with (Ascii.eqb "_") r) as [|c' r']; cbn [PyStr.map_chars].
  - now destruct (Ascii.eqb "_" c).
  - reflexivity.
Qed.

Lemma lower_map (f : ascii -> ascii) (s : string) :
  (forall c, PyStr.to_lower (f c) = PyStr.to_lower c) ->
  PyStr.lower (PyStr.map_chars f s) = PyStr.lower s.
Proof.
  intros H. unfold PyStr.lower.
  induction s as [|c r IH]; cbn [PyStr.map_chars]; [reflexivity |].
  now rewrite H, IH.
Qed.

Lemma clean_name_map (f : ascii -> ascii) (s : string) :
  (forall c, PyStr.is_alnum (f c) = PyStr.is_alnum c) ->
  (forall c, Ascii.eqb "_" (f c) = Ascii.eqb "_" c) ->
  (forall c, PyStr.to_lower (f c) = PyStr.to_lower c) ->
  clean_name (PyStr.map_chars f s) = clean_name s.
Proof.
  intros Hal Hus Hlow. unfold clean_name, PyStr.strip_with.
  assert (f "_"%char = "_"%char) as Hfix.
  { symmetry. apply Ascii.eqb_eq. rewrite Hus. reflexivity. }
  rewrite re_sub_runs_map, rstrip_map, lstrip_map by assumption.
  now apply lower_map.
Qed.

(** *** Alphanumeric content *)

Lemma has_alnum_re_sub (b : bool) (s : string) :
  has_alnum (re_sub_runs b s) = has_alnum s.
Proof.
  revert b. induction s as [|c r IH]; intros b; cbn [re_sub_runs has_alnum];
    [reflexivity |].
  destruct (PyStr.is_alnum c) eqn:E.
  - cbn [has_alnum]. now rewrite E.
  - destruct b; [apply IH |]. cbn [has_alnum orb]. apply IH.
Qed.

Lemma underscore_not_alnum (c : ascii) :
  Ascii.eqb "_" c = true -> PyStr.is_alnum c = false.
Proof. intros H. apply Ascii.eqb_eq in H. now subst c. Qed.

Lemma has_alnum_lstrip (s : string) :
  has_alnum (PyStr.lstrip_with (Ascii.eqb "_") s) = has_alnum s.
Proof.
  induction s as [|c r IH]; cbn [PyStr.lstrip_with has_alnum]; [reflexivity |].
  destruct (Ascii.eqb "_" c) eqn:E; [| reflexivity].
  now rewrite IH, (underscore_not_alnum c E).
Qed.

Lemma has_alnum_rstrip (s : string) :
  has_alnum (PyStr.rstrip_with (Ascii.eqb "_") s) = has_alnum s.
Proof.
  induction s as [|c r IH]; cbn [PyStr.rstrip_with has_alnum]; [reflexivity |].
  rewrite <- IH.
  destruct (PyStr.rstrip_with (Ascii.eqb "_") r) as [|c' r']; [| reflexivity].
  destruct (Ascii.eqb "_" c) eqn:E; cbn [has_alnum].
  - now rewrite (underscore_not_alnum c E).
  - reflexivity.
Qed.

Lemma has_alnum_lower (s : string) : has_alnum (PyStr.lower s) = has_alnum s.
Proof.
  unfold PyStr.lower. induction s as [|c r IH]; cbn [PyStr.map_chars has_alnum];
    [reflexivity |].
  now rewrite IH, (proj1 (to_lower_class c)).
Qed.

Lemma has_alnum_clean (s : string) : has_alnum (clean_name s) = has_alnum s.
Proof.
  unfold clean_name, PyStr.strip_with.
  now rewrite has_alnum_lower, has_alnum_lstrip, has_alnum_rstrip, has_alnum_re_sub.
Qed.

Lemma token_without_alnum (t : string) :
  is_token t = true -> has_alnum t = false -> t = "".
Proof.
  unfold is_token. destruct t as [|c r]; [reflexivity |].
  cbn [token_shape has_alnum].
  destruct (PyStr.is_lower c || PyStr.is_digit c) eqn:E.
  - intros _. destruct (to_lower_token_char c E) as [_ ->]. discriminate.
  - rewrite andb_false_r. discriminate.
Qed.

End CleaningFacts.

(** ** Further properties of the header resolver *)

Section ResolverExtras.

(** X1.  A cleaned name is made of lower-case letters, digits and
    underscores; it neither starts nor ends with an underscore and has no
    two underscores in a row. *)
Theorem clean_name_shape (s : string) :
  (forall c, In c (list_ascii_of_string (clean_name s)) ->
             PyStr.is_lower c || PyStr.is_digit c = true \/ c = "_"%char)
  /\ (forall r, clean_name s <> String "_" r)
  /\ (forall r, clean_name s <> r +:+ "_")
  /\ (forall x y, clean_name s <> x +:+ "__" +:+ y).
Proof.
  pose proof (clean_name_token s) as Htok. unfold is_token in Htok.
  split; [| split; [| split]].
  - intros c. now apply (token_chars true).
  - intros r Heq. rewrite Heq in Htok. discriminate.
  - intros r. now apply (token_no_trailing true).
  - intros x y. now apply (token_no_double true).
Qed.

(** X2.  Cleaning a cleaned name changes nothing. *)
Theorem clean_name_idempotent (s : string) :
  clean_name (clean_name s) = clean_name s.
Proof. apply token_fixed, clean_name_token. Qed.

Lemma clean_name_upper (s : string) : clean_name (PyStr.upper s) = clean_name s.
Proof.
  apply clean_name_map; intros c.
  - apply to_upper_class.
  - apply to_upper_class.
  - apply to_lower_to_upper.
Qed.

Lemma clean_name_lower (s : string) : clean_name (PyStr.lower s) = clean_name s.
Proof.
  apply clean_name_map; intros c.
  - apply to_lower_class.
  - apply to_lower_class.
  - destruct c as [[] [] [] [] [] [] [] []]; reflexivity.
Qed.

(** X3.  Cleaning does not see the case of the letters. *)
Theorem clean_name_ignores_case (s : string) :
  clean_name (PyStr.upper s) = clean_name s
  /\ clean_name (PyStr.lower s) = clean_name s.
Proof. split; [apply clean_name_upper | apply clean_name_lower]. Qed.

(** X4.  A name cleans to the empty token exactly when it has no letter
    and no digit. *)
Theorem clean_name_empty_iff (s : string) :
  clean_name s = "" <-> has_alnum s = false.
Proof.
  rewrite <- (has_alnum_clean s). split.
  - intros ->. reflexivity.
  - apply token_without_alnum, clean_name_token.
Qed.

Lemma find_clean_upper (token : string) (cols : list string) :
  find_clean token (List.map PyStr.upper cols)
  = option_map PyStr.upper (find_clean token cols).
Proof.
  induction cols as [|c cs IH]; cbn [List.map find_clean]; [reflexivity |].
  rewrite clean_name_upper.
  destruct (String.eqb (clean_name c) token); [reflexivity | exact IH].
Qed.

(** X5.  [find_col] sees the patterns only through their tokens: two
    lists of patterns with the same tokens bind the same column, and so the
    patterns may be given cleaned or in any case. *)
Theorem find_col_patterns_by_token (cols pats pats' : list string) :
  List.map clean_name pats = List.map clean_name pats' ->
  find_col cols pats = find_col cols pats'.
Proof.
  revert pats'. induction pats as [|p ps IH]; intros [|p' ps'] Heq;
    try discriminate; [reflexivity |].
  cbn [List.map] in Heq. injection Heq as Hp Hps.
  cbn [find_col]. rewrite Hp, (IH ps' Hps). reflexivity.
Qed.

(** X6.  The match does not see the case of the headers: on the
    uppercased headers [find_col] binds the uppercased column. *)
Theorem find_col_ignores_header_case (cols pats : list string) :
  find_col (List.map PyStr.upper cols) pats
  = option_map PyStr.upper (find_col cols pats).
Proof.
  induction pats as [|p ps IH]; cbn [find_col]; [reflexivity |].
  rewrite find_clean_upper.
  destruct (find_clean (clean_name p) cols); [reflexivity | exact IH].
Qed.

Lemma find_clean_filter (q : string -> bool) (token : string) (cols : list string) :
  (forall c, clean_name c = token -> q c = true) ->
  find_clean token (List.filter q cols) = find_clean token cols.
Proof.
  intros Hq. induction cols as [|c cs IH]; cbn [List.filter find_clean]; [reflexivity |].
  destruct (String.eqb_spec (clean_name c) token) as [Heq | Hne].
  - rewrite (Hq c Heq). cbn [find_clean]. rewrite <- Heq, String.eqb_refl. reflexivity.
  - destruct (q c); [| exact IH]. cbn [find_clean].
    apply String.eqb_neq in Hne. now rewrite Hne.
Qed.

(** X7.  Columns that match no pattern play no part: dropping them from
    the header, wherever they stand, does not change the bound column. *)
Theorem find_col_ignores_unrelated (cols pats : list string) :
  find_col
    (List.filter
       (fun c => existsb (String.eqb (clean_name c)) (List.map clean_name pats))
       cols)
    pats
  = find_col cols pats.
Proof.
  set (q := fun c => existsb (String.eqb (clean_name c)) (List.map clean_name pats)).
  assert (forall c p, In p pats -> clean_name c = clean_name p -> q c = true) as Hq.
  { intros c p Hp Heq. unfold q. apply existsb_exists. exists (clean_name p).
    split; [now apply in_map | now apply String.eqb_eq]. }
  clearbody q. induction pats as [|p ps IH]; [reflexivity |].
  cbn [find_col]. rewrite find_clean_filter.
  - rewrite IH; [reflexivity |]. intros c p' Hp'. apply Hq. now right.
  - intros c Hc. apply (Hq c p); [now left | exact Hc].
Qed.

End ResolverExtras.

Lemma find_col_patterns_by_token_witness :
  find_col ["Trade Date"; "Side"] ["TRADE-DATE"; " side "]
  = find_col ["Trade Date"; "Side"] ["trade_date"; "side"].
Proof.
  apply (find_col_patterns_by_token ["Trade Date"; "Side"] ["TRADE-DATE"; " side "]
           ["trade_date"; "side"]).
  reflexivity.
Defined.

(** ** Further properties of the role dictionary *)

Section RoleExtras.

Lemma detect_bound (cols : list string) (role c : string) :
  col_get (detect_columns cols) role = Some c ->
  exists pats, In (role, pats) candidates /\ find_col cols pats = Some c.
Proof.
  unfold col_get, detect_columns.
  destruct (list_to_map _ !! role) as [v|] eqn:E; [| discriminate].
  intros ->. apply elem_of_list_to_map_2, list_elem_of_In in E.
  apply in_map_iff in E as ([r pats] & [= -> Hfind] & Hin). eauto.
Qed.

Lemma candidate_tokens (role : string) (pats : list string) (t : string) :
  In (role, pats) candidates -> In t (List.map clean_name pats) ->
  has_alnum t = true /\ t <> clean_name "__quote__".
Proof.
  unfold candidates. cbn [In]. intros Hin Ht.
  repeat (destruct Hin as [[= <- <-] | Hin];
          [cbn [List.map In] in Ht;
           repeat (destruct Ht as [<- | Ht]; [split; [reflexivity | discriminate] |]);
           contradiction |]).
  contradiction.
Qed.

Lemma candidates_disjoint (r1 r2 : string) (p1 p2 : list string) :
  In (r1, p1) candidates -> In (r2, p2) candidates -> r1 <> r2 ->
  disjoint_tokens (List.map clean_name p1) (List.map clean_name p2) = true.
Proof.
  unfold candidates. cbn [In]. intros H1 H2 Hne.
  repeat (destruct H1 as [[= <- <-] | H1];
          [repeat (destruct H2 as [[= <- <-] | H2];
                   [first [reflexivity | now destruct Hne] |]);
           contradiction |]).
  contradiction.
Qed.

(** X8.  Two different roles are never bound to the same column: the
    candidate lists of the roles share no token. *)
Theorem roles_bind_distinct_columns (cols : list string) (r1 r2 c1 c2 : string) :
  r1 <> r2 ->
  col_get (detect_columns cols) r1 = Some c1 ->
  col_get (detect_columns cols) r2 = Some c2 ->
  c1 <> c2.
Proof.
  intros Hne (p1 & Hin1 & H1)%detect_bound (p2 & Hin2 & H2)%detect_bound ->.
  apply find_col_sound in H1 as [_ T1]. apply find_col_sound in H2 as [_ T2].
  exact (disjoint_tokens_spec _ _ _ (candidates_disjoint r1 r2 p1 p2 Hin1 Hin2 Hne) T1 T2).
Qed.

(** X9.  A bound column is a column of the sheet, holds a letter or a
    digit, and is not the scratch column [__quote__] of the script; so it
    is not the empty name, and the test [if usd_col:] fails exactly when
    the role is unbound. *)
Theorem bound_columns (cols : list string) (role : string) :
  truthy (col_get (detect_columns cols) role) = col_get (detect_columns cols) role
  /\ forall c,
      col_get (detect_columns cols) role = Some c ->
      In c cols /\ has_alnum c = true /\ c <> "" /\ c <> "__quote__".
Proof.
  assert (forall c,
             col_get (detect_columns cols) role = Some c ->
             In c cols /\ has_alnum c = true /\ c <> "" /\ c <> "__quote__") as Hbound.
  { intros c (pats & Hin & Hfind)%detect_bound.
    apply find_col_sound in Hfind as [Hc Htok].
    destruct (candidate_tokens role pats _ Hin Htok) as [Hal Hq].
    rewrite has_alnum_clean in Hal.
    repeat split; [exact Hc | exact Hal | | ].
    - intros ->. discriminate.
    - intros ->. now apply Hq. }
  split; [| exact Hbound].
  destruct (col_get (detect_columns cols) role) as [c|] eqn:E; [| reflexivity].
  destruct (Hbound c eq_refl) as (_ & _ & Hne & _).
  cbn [truthy]. apply String.eqb_neq in Hne. now rewrite Hne.
Qed.

End RoleExtras.

Lemma roles_bind_distinct_columns_witness : "Rate" <> "USD INR Rate".
Proof.
  apply (roles_bind_distinct_columns ["Pair"; "Rate"; "USD INR Rate"]
           "price" "usd_inr" "Rate" "USD INR Rate").
  - discriminate.
  - reflexivity.
  - reflexivity.
Defined.

(** ** Further properties of the quote and of the trade type *)

Section QuoteExtras.

#[local] Arguments String.append : simpl nomatch.

Lemma map_chars_twice (f g h : ascii -> ascii) (s : string) :
  (forall c, f (g c) = h c) ->
  PyStr.map_chars f (PyStr.map_chars g s) = PyStr.map_chars h s.
Proof.
  intros H. induction s as [|c r IH]; cbn [PyStr.map_chars]; [reflexivity |].
  now rewrite H, IH.
Qed.

Lemma upper_idempotent (s : string) : PyStr.upper (PyStr.upper s) = PyStr.upper s.
Proof.
  apply map_chars_twice. intros c.
  destruct c as [[] [] [] [] [] [] [] []]; reflexivity.
Qed.

Lemma upper_lower (s : string) : PyStr.upper (PyStr.lower s) = PyStr.upper s.
Proof. apply map_chars_twice, to_upper_to_lower. Qed.

Lemma upper_suffix (p q : string) :
  PyStr.upper (p +:+ q) = p +:+ q -> PyStr.upper q = q.
Proof.
  induction p as [|c p IH]; [auto |].
  change (PyStr.upper (String c p +:+ q))
    with (String (PyStr.to_upper c) (PyStr.upper (p +:+ q))).
  change (String c p +:+ q) with (String c (p +:+ q)).
  intros [= _ H]. auto.
Qed.

Lemma contains_suffix (ch : ascii) (p q : string) :
  PyStr.contains ch (p +:+ q) = false -> PyStr.contains ch q = false.
Proof.
  intros H. destruct (PyStr.contains ch q) eqn:E; [| reflexivity].
  apply contains_iff in E as (a & b & ->).
  assert (PyStr.contains ch (p +:+ a +:+ String ch b) = true) as C.
  { apply contains_iff. exists (p +:+ a), b. now rewrite append_assoc. }
  congruence.
Qed.


Lemma first_suffix_in (s q : string) (quotes : list string) :
  first_suffix s quotes = Some q -> In q quotes /\ PyStr.endswith s q = true.
Proof.
  intros (before & after & -> & Hq & _)%first_suffix_some.
  split; [apply in_or_app; right; now left | exact Hq].
Qed.

(** X10.  The extracted quote has no hyphen and is in upper case, for
    any symbol. *)
Theorem extract_quote_result (market_str : string) :
  PyStr.contains "-" (extract_quote market_str) = false
  /\ PyStr.upper (extract_quote market_str) = extract_quote market_str.
Proof.
  unfold extract_quote.
  set (s := PyStr.strip (PyStr.upper market_str)).
  assert (PyStr.upper s = s) as Hup.
  { unfold s, PyStr.strip, PyStr.strip_with.
    pose proof (upper_idempotent market_str) as Hu.
    remember (PyStr.upper market_str) as u eqn:Eu. clear Eu market_str s.
    assert (forall v, PyStr.upper v = v ->
                      PyStr.upper (PyStr.rstrip_with PyStr.is_space v)
                      = PyStr.rstrip_with PyStr.is_space v) as Hr.
    { induction v as [|c r IH]; [reflexivity |].
      change (PyStr.upper (String c r)) with (String (PyStr.to_upper c) (PyStr.upper r)).
      intros [= Hc Hv]. cbn [PyStr.rstrip_with]. specialize (IH Hv).
      destruct (PyStr.rstrip_with PyStr.is_space r) as [|c' r'].
      - destruct (PyStr.is_space c); [reflexivity |].
        change (PyStr.upper (String c "")) with (String (PyStr.to_upper c) "").
        now rewrite Hc.
      - change (PyStr.upper (String c (String c' r')))
          with (String (PyStr.to_upper c) (PyStr.upper (String c' r'))).
        now rewrite Hc, IH. }
    assert (forall v, PyStr.upper v = v ->
                      PyStr.upper (PyStr.lstrip_with PyStr.is_space v)
                      = PyStr.lstrip_with PyStr.is_space v) as Hl.
    { induction v as [|c r IH]; [reflexivity |].
      change (PyStr.upper (String c r)) with (String (PyStr.to_upper c) (PyStr.upper r)).
      intros [= Hc Hv]. cbn [PyStr.lstrip_with].
      destruct (PyStr.is_space c); [now apply IH |].
      change (PyStr.upper (String c r)) with (String (PyStr.to_upper c) (PyStr.upper r)).
      now rewrite Hc, Hv. }
    auto. }
  destruct (split_last "-"%char s) as (Hnodash & Hafter & _).
  destruct (PyStr.contains "-"%char s) eqn:Hc.
  - split; [exact Hnodash |].
    destruct (Hafter eq_refl) as [a Ha]. rewrite Ha in Hup.
    apply upper_suffix in Hup.
    exact (upper_suffix (String "-" "") _ Hup).
  - destruct (first_suffix s common_quotes) as [q|] eqn:Hq.
    + apply first_suffix_in in Hq as [Hin _].
      unfold common_quotes in Hin. cbn [In] in Hin.
      repeat (destruct Hin as [<- | Hin]; [split; reflexivity |]). contradiction.
    + destruct (last_chars_suffix 3 s) as [[p Hp] _].
      rewrite Hp in Hc, Hup. split.
      * exact (contains_suffix _ _ _ Hc).
      * exact (upper_suffix _ _ Hup).
Qed.

(** X11.  The quote does not depend on the case of the symbol. *)
Theorem extract_quote_ignores_case (market_str : string) :
  extract_quote (PyStr.upper market_str) = extract_quote market_str
  /\ extract_quote (PyStr.lower market_str) = extract_quote market_str.
Proof.
  unfold extract_quote. now rewrite upper_idempotent, upper_lower.
Qed.


(** X13.  Flipping the trade type twice gives it back, and on the
    uppercased text of a cell, as line 128 prepares it, mirroring twice
    gives the uppercased trade type. *)
Theorem flip_involution (x : string) :
  flip (flip x) = x
  /\ flip (PyStr.upper (flip (PyStr.upper x))) = PyStr.upper x.
Proof.
  assert (forall y, flip (flip y) = y) as Hinv.
  { intros y. unfold flip.
    destruct (String.eqb_spec y "SELL") as [-> | H1]; [reflexivity |].
    destruct (String.eqb_spec y "BUY") as [-> | H2]; [reflexivity |].
    apply String.eqb_neq in H1, H2. now rewrite H1, H2. }
  split; [apply Hinv |].
  assert (PyStr.upper (flip (PyStr.upper x)) = flip (PyStr.upper x)) as ->.
  { unfold flip.
    destruct (String.eqb (PyStr.upper x) "SELL"); [reflexivity |].
    destruct (String.eqb (PyStr.upper x) "BUY"); [reflexivity |].
    apply upper_idempotent. }
  apply Hinv.
Qed.

End QuoteExtras.

(** ** Further properties of the run *)

Section EngineExtras.
Context {P : Pandas}.

Lemma concat_rows_in (ro : roles) (df : frame) (r : row) :
  In r (concat_rows ro df) <->
  In r (rows df) \/ exists r0, In r0 (non_inr_rows ro df) /\ r = mirror_row ro r0.
Proof.
  unfold concat_rows, non_inr_rows. rewrite in_app_iff, in_map_iff.
  split; (intros [H | (r0 & H1 & H2)]; [now left | right; exists r0]); auto.
Qed.

Lemma completed_rows (df_raw : frame) (ro : roles) (out : frame) :
  resolve (columns df_raw) = Some ro ->
  snd (process df_raw) = Completed out ->
  forall r', In r' (rows out) <->
             exists r, In r (concat_rows ro df_raw) /\ r' = coerce_row ro r.
Proof.
  intros Hro Hout r'.
  destruct (process df_raw) as [log o] eqn:Hp. cbn [snd] in Hout. subst o.
  destruct (completed_perm _ _ _ _ Hro Hp) as (Hperm & _ & _).
  unfold coerced_rows in Hperm. split.
  - intros Hin. apply (Permutation_in _ Hperm) in Hin.
    apply in_map_iff in Hin as (r & <- & Hr). now exists r.
  - intros (r & Hr & ->). apply (Permutation_in _ (Permutation_sym Hperm)).
    now apply in_map.
Qed.

Lemma mirrored_in_output (df_raw : frame) (ro : roles) (out : frame) (r : row) :
  resolve (columns df_raw) = Some ro ->
  snd (process df_raw) = Completed out ->
  In r (non_inr_rows ro df_raw) ->
  In (coerce_row ro (mirror_row ro r)) (rows out).
Proof.
  intros Hro Hout Hr. apply (completed_rows _ _ _ Hro Hout).
  exists (mirror_row ro r). split; [| reflexivity].
  apply concat_rows_in. right. now exists r.
Qed.




(** X15.  The processed sheet has the columns of the uploaded sheet, in
    their order: the helper column [__quote__] of lines 124-147 is not
    added.  When the uploaded sheet has a column of that name of its own,
    the original rows keep its cells and the mirrored rows hold no value in
    it. *)
Theorem output_header (df_raw : frame) (ro : roles) (out : frame) :
  resolve (columns df_raw) = Some ro ->
  snd (process df_raw) = Completed out ->
  columns out = columns df_raw
  /\ (forall r,
         In r (rows df_raw) ->
         In (coerce_row ro r) (rows out)
         /\ row_get "__quote__" (coerce_row ro r) = row_get "__quote__" r)
  /\ (forall r,
         In r (non_inr_rows ro df_raw) ->
         In (coerce_row ro (mirror_row ro r)) (rows out)
         /\ row_get "__quote__" (coerce_row ro (mirror_row ro r)) = CNaN).
Proof.
  intros Hro Hout.
  pose proof (resolve_separated _ _ Hro) as (Hnd & _ & _).
  assert ("__quote__" <> date_col ro) as Hq.
  { destruct ro as [m t q p tot d u]. unpack_nodup Hnd. cbn [date_col].
    congruence. }
  split; [exact (completed_columns _ _ _ Hro Hout) |]. split.
  - intros r Hr. split.
    + apply (completed_rows _ _ _ Hro Hout). exists r. split; [| reflexivity].
      apply concat_rows_in. now left.
    + now apply coerce_row_other.
  - intros r Hr. split; [now apply (mirrored_in_output df_raw) |].
    rewrite coerce_row_other by exact Hq.
    unfold mirror_row. apply row_get_delete_eq.
Qed.

(** X16.  The mirrored row of a non-INR row, as it stands in the
    processed sheet: the trade type is the uppercased type with BUY and
    SELL exchanged, the quantity is the original one, the date is the
    coerced original date, and every column that has no role is copied. *)
Theorem mirrored_row_in_output (df_raw : frame) (ro : roles) (out : frame) (r : row) :
  resolve (columns df_raw) = Some ro ->
  snd (process df_raw) = Completed out ->
  In r (non_inr_rows ro df_raw) ->
  In (coerce_row ro (mirror_row ro r)) (rows out)
  /\ row_get (tt_col ro) (coerce_row ro (mirror_row ro r))
     = CStr (flip (PyStr.upper (cell_str (row_get (tt_col ro) r))))
  /\ row_get (qty_col ro) (coerce_row ro (mirror_row ro r)) = row_get (qty_col ro) r
  /\ row_get (date_col ro) (coerce_row ro (mirror_row ro r))
     = coerce_datetime (row_get (date_col ro) r)
  /\ forall c, ~ In c (role_columns ro) ->
               row_get c (coerce_row ro (mirror_row ro r)) = row_get c r.
Proof.
  intros Hro Hout Hr.
  pose proof (resolve_separated _ _ Hro) as (Hnd & _ & Htr).
  assert (tt_col ro <> date_col ro /\ qty_col ro <> date_col ro) as [Ht Hq].
  { pose proof Hnd as Hnd'. destruct ro as [m t q p tot d u].
    unpack_nodup Hnd'. cbn [tt_col qty_col date_col]. split; congruence. }
  assert (row_get (tt_col ro) (mirror_row ro r)
          = CStr (flip (PyStr.upper (cell_str (row_get (tt_col ro) r))))
          /\ row_get (qty_col ro) (mirror_row ro r) = row_get (qty_col ro) r
          /\ row_get (date_col ro) (mirror_row ro r) = row_get (date_col ro) r)
    as (Htt & Hqty & Hdate).
  { destruct (usd_col ro) as [u|] eqn:Hu.
    - assert (u <> "") as Hne.
      { intros ->. discriminate Htr. }
      pose proof (mirror_row_rate ro u r Hnd Hu Hne) as H. cbn zeta in H. tauto.
    - pose proof (mirror_row_no_rate ro r Hnd Hu) as H. cbn zeta in H. tauto. }
  split; [now apply (mirrored_in_output df_raw) |].
  rewrite !coerce_row_other by assumption.
  rewrite coerce_row_date, Hdate.
  repeat split; try assumption.
  intros c Hc. rewrite coerce_row_other.
  - now apply mirror_row_other.
  - intros ->. apply Hc. unfold role_columns. cbn [In]. auto 10.
Qed.


(** X18.  Every row of the uploaded sheet, INR or not, is in the
    processed sheet with its cells unchanged except the date, and the date
    column of the processed sheet holds time stamps and missing dates
    only: the text of a date that does not parse is not kept. *)
Theorem originals_kept (df_raw : frame) (ro : roles) (out : frame) :
  resolve (columns df_raw) = Some ro ->
  snd (process df_raw) = Completed out ->
  (forall r,
      In r (rows df_raw) ->
      In (coerce_row ro r) (rows out)
      /\ forall c, c <> date_col ro -> row_get c (coerce_row ro r) = row_get c r)
  /\ (forall r',
         In r' (rows out) ->
         row_get (date_col ro) r' = CNaT
         \/ exists t, row_get (date_col ro) r' = CTime t).
Proof.
  intros Hro Hout. split.
  - intros r Hr. split.
    + apply (completed_rows _ _ _ Hro Hout). exists r. split; [| reflexivity].
      apply concat_rows_in. now left.
    + intros c Hc. now apply coerce_row_other.
  - intros r' Hr'. apply (completed_rows _ _ _ Hro Hout) in Hr' as (r & _ & ->).
    rewrite coerce_row_date. unfold coerce_datetime.
    destruct (to_datetime (row_get (date_col ro) r)) as [t|]; eauto.
Qed.

End EngineExtras.

Lemma output_header_witness :
  columns (Frame Samples.header_rate [Samples.btc_buy; Samples.btc_buy_mirrored])
  = columns Samples.sheet_btc
  /\ (forall r,
         In r (rows Samples.sheet_btc) ->
         In (coerce_row Samples.roles_rate r)
           (rows (Frame Samples.header_rate
                    [Samples.btc_buy; Samples.btc_buy_mirrored]))
         /\ row_get "__quote__" (coerce_row Samples.roles_rate r)
            = row_get "__quote__" r)
  /\ (forall r,
         In r (non_inr_rows Samples.roles_rate Samples.sheet_btc) ->
         In (coerce_row Samples.roles_rate (mirror_row Samples.roles_rate r))
           (rows (Frame Samples.header_rate
                    [Samples.btc_buy; Samples.btc_buy_mirrored]))
         /\ row_get "__quote__"
              (coerce_row Samples.roles_rate (mirror_row Samples.roles_rate r))
            = CNaN).
Proof.
  apply (output_header (P := Sheet.pandas) Samples.sheet_btc Samples.roles_rate).
  - reflexivity.
  - reflexivity.
Defined.

Lemma mirrored_row_in_output_witness :
  In (coerce_row Samples.roles_rate (mirror_row Samples.roles_rate Samples.btc_buy))
    [Samples.btc_buy; Samples.btc_buy_mirrored]
  /\ row_get "Trade Type"
       (coerce_row Samples.roles_rate (mirror_row Samples.roles_rate Samples.btc_buy))
     = CStr "SELL"
  /\ row_get "Quantity"
       (coerce_row Samples.roles_rate (mirror_row Samples.roles_rate Samples.btc_buy))
     = CNum 2%Z.
Proof.
  pose proof (mirrored_row_in_output (P := Sheet.pandas) Samples.sheet_btc
                Samples.roles_rate
                (Frame Samples.header_rate [Samples.btc_buy; Samples.btc_buy_mirrored])
                Samples.btc_buy eq_refl eq_refl (or_introl eq_refl))
    as (Hin & Htt & Hqty & _).
  exact (conj Hin (conj Htt Hqty)).
Defined.


Lemma originals_kept_witness :
  In (coerce_row Samples.roles_rate Samples.btc_buy)
    [Samples.btc_buy; Samples.btc_buy_mirrored]
  /\ row_get "Price" (coerce_row Samples.roles_rate Samples.btc_buy)
     = row_get "Price" Samples.btc_buy.
Proof.
  destruct (originals_kept (P := Sheet.pandas) Samples.sheet_btc Samples.roles_rate
              (Frame Samples.header_rate [Samples.btc_buy; Samples.btc_buy_mirrored])
              eq_refl eq_refl) as [Hkept _].
  destruct (Hkept Samples.btc_buy (or_introl eq_refl)) as [Hin Hcells].
  split; [exact Hin | apply Hcells; discriminate].
Defined.

